(** * Career Readiness Score wizard: intake forms, upload handlers and the
      scoring submission of the React front end, embedded as Rocq functions.

    Source files covered:
    - [frontend/src/App.jsx]                          (wizard controller)
    - [frontend/src/components/SkillsForm.jsx]
    - [frontend/src/components/CertificationsForm.jsx]
    - [ProjectsForm], [InternshipsForm], [ResumeUpload] components.

    React state is modelled by explicit state passing: every handler is a
    function of the state its closure was created over.  Handlers that
    [await] a network call and wrap it in [try]/[catch] are written in a small
    state-and-exception monad; the outcome of each network call is an input.
    The page as a whole ([Wizard]) is a transition system in which these
    handlers are suspended at their [await] while other events go on. *)

From Stdlib Require Import List Bool Arith NArith ZArith Lia String Ascii.
Import ListNotations.

(* ================================================================== *)
(** * JavaScript values used by the front end *)
(* ================================================================== *)

Module JS.

(** A JavaScript string is a sequence of UTF-16 code units. *)
Definition code_unit := N.
Definition jsstring := list code_unit.

(** String literals of the source (all of them ASCII). *)
Definition lit (s : string) : jsstring :=
  map N_of_ascii (list_ascii_of_string s).

Definition comma : code_unit := 44%N.
Definition newline : code_unit := 10%N.

Fixpoint eqb (s t : jsstring) : bool :=
  match s, t with
  | [], [] => true
  | c :: s', d :: t' => (c =? d)%N && eqb s' t'
  | _, _ => false
  end.

(** ECMAScript [WhiteSpace] and [LineTerminator] code points: the characters
    that [String.prototype.trim] strips. *)
Definition is_white_space (c : code_unit) : bool :=
  ((c =? 0x9) || (c =? 0xA) || (c =? 0xB) || (c =? 0xC) || (c =? 0xD)
   || (c =? 0x20) || (c =? 0xA0) || (c =? 0x1680)
   || ((0x2000 <=? c) && (c <=? 0x200A))
   || (c =? 0x2028) || (c =? 0x2029) || (c =? 0x202F) || (c =? 0x205F)
   || (c =? 0x3000) || (c =? 0xFEFF))%N.

Fixpoint trimStart (s : jsstring) : jsstring :=
  match s with
  | [] => []
  | c :: s' => if is_white_space c then trimStart s' else s
  end.

Definition trimEnd (s : jsstring) : jsstring := rev (trimStart (rev s)).

(** [s.trim()] *)
Definition trim (s : jsstring) : jsstring := trimEnd (trimStart s).

(** Truthiness of the value kinds the code tests with [!], [||], [&&], [?:]. *)
Definition truthy_string (s : jsstring) : bool :=
  match s with [] => false | _ :: _ => true end.
Definition truthy_number (n : Z) : bool := negb (n =? 0)%Z.

(** [x || d] where [x] is a possibly absent ([undefined]) property.
    One function per kind of value: strings are falsy when empty, numbers
    when zero, booleans when false; arrays are objects, hence always truthy. *)
Definition or_string (x : option jsstring) (d : jsstring) : jsstring :=
  match x with
  | Some s => if truthy_string s then s else d
  | None => d
  end.
Definition or_number (x : option Z) (d : Z) : Z :=
  match x with
  | Some n => if truthy_number n then n else d
  | None => d
  end.
Definition or_bool (x : option bool) (d : bool) : bool :=
  match x with
  | Some b => if b then b else d
  | None => d
  end.
Definition or_array {A : Type} (x : option (list A)) (d : list A) : list A :=
  match x with
  | Some l => l
  | None => d
  end.

(** [s.split(sep)] for a one-character separator: the segments between the
    occurrences of [sep]; always at least one segment. *)
Fixpoint split (sep : code_unit) (s : jsstring) : list jsstring :=
  match s with
  | [] => [[]]
  | c :: s' =>
      if (c =? sep)%N then [] :: split sep s'
      else match split sep s' with
           | seg :: segs => (c :: seg) :: segs
           | [] => [[c]]
           end
  end.

(** [l.join(sep)] *)
Fixpoint join (sep : jsstring) (l : list jsstring) : jsstring :=
  match l with
  | [] => []
  | x :: rest =>
      match rest with
      | [] => x
      | _ :: _ => x ++ sep ++ join sep rest
      end
  end.

(** [l.includes(x)] on an array of strings. *)
Definition includes (l : list jsstring) (x : jsstring) : bool :=
  existsb (eqb x) l.

(** [l.filter((x, i) => p(x, i))]: the callback also receives the index. *)
Fixpoint filter_from {A : Type} (p : A -> nat -> bool) (i : nat) (l : list A)
  : list A :=
  match l with
  | [] => []
  | x :: l' =>
      if p x i then x :: filter_from p (S i) l' else filter_from p (S i) l'
  end.
Definition filter_index {A : Type} (p : A -> nat -> bool) (l : list A)
  : list A := filter_from p 0 l.

(** Parsed JSON, as returned by [res.json()].  The score report is stored
    and handed to the results view without being inspected. *)
#[local] Unset Elimination Schemes.
Inductive Json : Type :=
| JNull
| JBool (b : bool)
| JNum (n : Z)
| JStr (s : jsstring)
| JArr (items : list Json)
| JObj (props : list (jsstring * Json)).
#[local] Set Elimination Schemes.

End JS.
Import JS.

(* ================================================================== *)
(** * Data model: the records held in the wizard's [data] state *)
(* ================================================================== *)

(** Optional properties are [option]s: [None] is an absent ([undefined])
    property.  The forms always write every property; the payload builder
    guards each optional one with [||]. *)

Module Certification.
Record t : Type := mk
  { name : jsstring;
    issuer : option jsstring;
    year : option Z }.
End Certification.

Module Project.
Record t : Type := mk
  { title : jsstring;
    description : option jsstring;
    techStack : option (list jsstring);
    githubUrl : option jsstring }.
End Project.

Module Internship.
Record t : Type := mk
  { company : jsstring;
    role : option jsstring;
    durationMonths : option Z;
    achievements : option jsstring;
    hasCertificate : option bool }.
End Internship.

(** A dropped [File]; only its [name] is read. *)
Module File.
Record t : Type := mk { name : jsstring }.
End File.

(** The [data] object of [App]. *)
Module Intake.
Record t : Type := mk
  { skills : list jsstring;
    certifications : list Certification.t;
    projects : list Project.t;
    internships : list Internship.t;
    resumeText : option jsstring;
    resumeFile : option File.t }.

(** [useState({ skills: [], certifications: [], ..., resumeFile: null })] *)
Definition initial : t :=
  {| skills := []; certifications := []; projects := []; internships := [];
     resumeText := Some []; resumeFile := None |}.
End Intake.

(** The JSON body posted to [/api/score/calculate]. *)
Module Payload.

Module Cert.
Record t : Type := mk
  { name : jsstring; issuer : jsstring; year : Z }.
End Cert.

Module Project.
Record t : Type := mk
  { title : jsstring;
    description : jsstring;
    tech_stack : list jsstring;
    github_url : jsstring }.
End Project.

Module Internship.
Record t : Type := mk
  { company : jsstring;
    role : jsstring;
    duration_months : Z;
    achievements : jsstring;
    has_certificate : bool }.
End Internship.

Record t : Type := mk
  { skills : list jsstring;
    certifications : list Cert.t;
    projects : list Project.t;
    internships : list Internship.t;
    resume_text : jsstring }.

End Payload.

(** Response of [/api/score/certifications/scan]; also the shape of the
    [scanResult] state, which the [catch] branch fills with an object that
    has an [error] property only. *)
Module ScanResult.
Record Match : Type := mkMatch
  { tier : option jsstring;
    tier_label : option jsstring }.
Record t : Type := mk
  { identified : option bool;
    cert_name : option jsstring;
    match_ : option Match;
    extracted_text_preview : option jsstring;
    error : option jsstring }.
End ScanResult.

(** Response of [/api/score/resume]. *)
Module ResumeScan.
Record Section : Type := mkSection { section_score : Z; section_weight : Z }.
Record t : Type := mk
  { score : option Z;
    section_scores : option (list (jsstring * Section));
    total_words : option Z;
    suggestions : option (list jsstring) }.
End ResumeScan.

(* ================================================================== *)
(** * React state: the [useState] cells of [App] and of each form *)
(* ================================================================== *)

(** [App]: [step], [data], [results], [loading]. *)
Module AppState.
Record t : Type := mk
  { step : nat;
    data : Intake.t;
    results : Json;
    loading : bool }.

Definition initial : t :=
  {| step := 0; data := Intake.initial; results := JNull; loading := false |}.

Definition setStep (v : nat) (s : t) : t :=
  {| step := v; data := data s; results := results s; loading := loading s |}.
Definition setData (f : Intake.t -> Intake.t) (s : t) : t :=
  {| step := step s; data := f (data s); results := results s;
     loading := loading s |}.
Definition setResults (v : Json) (s : t) : t :=
  {| step := step s; data := data s; results := v; loading := loading s |}.
Definition setLoading (v : bool) (s : t) : t :=
  {| step := step s; data := data s; results := results s; loading := v |}.
End AppState.

(** [CertificationsForm]: [name], [issuer], [year], [scanning], [scanResult]. *)
Module CertState.
Record t : Type := mk
  { name : jsstring;
    issuer : jsstring;
    year : Z;
    scanning : bool;
    scanResult : option ScanResult.t }.

Definition initial : t :=
  {| name := []; issuer := []; year := 2024; scanning := false;
     scanResult := None |}.

Definition setName (v : jsstring) (s : t) : t :=
  {| name := v; issuer := issuer s; year := year s; scanning := scanning s;
     scanResult := scanResult s |}.
Definition setIssuer (v : jsstring) (s : t) : t :=
  {| name := name s; issuer := v; year := year s; scanning := scanning s;
     scanResult := scanResult s |}.
Definition setYear (v : Z) (s : t) : t :=
  {| name := name s; issuer := issuer s; year := v; scanning := scanning s;
     scanResult := scanResult s |}.
Definition setScanning (v : bool) (s : t) : t :=
  {| name := name s; issuer := issuer s; year := year s; scanning := v;
     scanResult := scanResult s |}.
Definition setScanResult (v : option ScanResult.t) (s : t) : t :=
  {| name := name s; issuer := issuer s; year := year s;
     scanning := scanning s; scanResult := v |}.
End CertState.

(** [ProjectsForm]: the [form] object; [techStack] is the raw text input. *)
Module ProjectState.
Record t : Type := mk
  { title : jsstring;
    description : jsstring;
    techStack : jsstring;
    githubUrl : jsstring }.

Definition initial : t :=
  {| title := []; description := []; techStack := []; githubUrl := [] |}.
End ProjectState.

(** [InternshipsForm]: the [form] object. *)
Module InternshipState.
Record t : Type := mk
  { company : jsstring;
    role : jsstring;
    durationMonths : Z;
    achievements : jsstring;
    hasCertificate : bool }.

Definition initial : t :=
  {| company := []; role := []; durationMonths := 3; achievements := [];
     hasCertificate := false |}.
End InternshipState.

(** [ResumeUpload]: [uploading], [fileName], [preview]. *)
Module ResumeState.
Record t : Type := mk
  { uploading : bool;
    fileName : jsstring;
    preview : option ResumeScan.t }.

Definition initial : t :=
  {| uploading := false; fileName := []; preview := None |}.

Definition setUploading (v : bool) (s : t) : t :=
  {| uploading := v; fileName := fileName s; preview := preview s |}.
Definition setFileName (v : jsstring) (s : t) : t :=
  {| uploading := uploading s; fileName := v; preview := preview s |}.
Definition setPreview (v : option ResumeScan.t) (s : t) : t :=
  {| uploading := uploading s; fileName := fileName s; preview := v |}.
End ResumeState.

(* ================================================================== *)
(** * The browser side: network, console, alerts, file readers *)
(* ================================================================== *)

(** What a [try] block can throw: [fetch] rejects on a transport failure,
    [res.json()] rejects when the body is not JSON. *)
Inductive Exn : Type :=
| FetchFailed
| JsonParseFailed.

(** The outcome of one [fetch], supplied by the environment: the request is
    rejected, or a response arrives whose body parses ([Some]) or not. *)
Inductive Net (R : Type) : Type :=
| Rejected
| Responded (body : option R).
Arguments Rejected {R}.
Arguments Responded {R} body.

(** A transport failure is any outcome that lands in the [catch] branch. *)
Definition failed {R : Type} (net : Net R) : bool :=
  match net with
  | Rejected => true
  | Responded None => true
  | Responded (Some _) => false
  end.

Inductive Request : Type :=
| PostJson (url : jsstring) (body : Payload.t)
| PostFile (url : jsstring) (file : File.t).

(** A [FileReader] whose [onload] closure is waiting for the read to finish;
    the closure captured the scan [result] and the [file]. *)
Record Reader : Type := mkReader
  { reader_result : ResumeScan.t;
    reader_file : File.t }.

Module Env.
Record t : Type := mk
  { VITE_API_URL : option jsstring;
    requests : list Request;
    console : list (jsstring * Exn);
    alerts : list jsstring;
    readers : list Reader }.

Definition initial : t :=
  {| VITE_API_URL := None; requests := []; console := []; alerts := [];
     readers := [] |}.

Definition send (r : Request) (e : t) : t :=
  {| VITE_API_URL := VITE_API_URL e; requests := requests e ++ [r];
     console := console e; alerts := alerts e; readers := readers e |}.
Definition console_error (msg : jsstring) (err : Exn) (e : t) : t :=
  {| VITE_API_URL := VITE_API_URL e; requests := requests e;
     console := console e ++ [(msg, err)]; alerts := alerts e;
     readers := readers e |}.
Definition alert (msg : jsstring) (e : t) : t :=
  {| VITE_API_URL := VITE_API_URL e; requests := requests e;
     console := console e; alerts := alerts e ++ [msg];
     readers := readers e |}.
Definition setReaders (rs : list Reader) (e : t) : t :=
  {| VITE_API_URL := VITE_API_URL e; requests := requests e;
     console := console e; alerts := alerts e; readers := rs |}.
End Env.

(** Everything a handler can read or change. *)
Record World : Type := mkWorld
  { app : AppState.t;
    certForm : CertState.t;
    projectForm : ProjectState.t;
    internshipForm : InternshipState.t;
    resumeUpload : ResumeState.t;
    env : Env.t }.

Definition initial_world : World :=
  {| app := AppState.initial; certForm := CertState.initial;
     projectForm := ProjectState.initial;
     internshipForm := InternshipState.initial;
     resumeUpload := ResumeState.initial; env := Env.initial |}.

Definition on_app (f : AppState.t -> AppState.t) (w : World) : World :=
  {| app := f (app w); certForm := certForm w; projectForm := projectForm w;
     internshipForm := internshipForm w; resumeUpload := resumeUpload w;
     env := env w |}.
Definition on_certForm (f : CertState.t -> CertState.t) (w : World) : World :=
  {| app := app w; certForm := f (certForm w); projectForm := projectForm w;
     internshipForm := internshipForm w; resumeUpload := resumeUpload w;
     env := env w |}.
Definition on_projectForm (f : ProjectState.t -> ProjectState.t) (w : World)
  : World :=
  {| app := app w; certForm := certForm w; projectForm := f (projectForm w);
     internshipForm := internshipForm w; resumeUpload := resumeUpload w;
     env := env w |}.
Definition on_internshipForm (f : InternshipState.t -> InternshipState.t)
  (w : World) : World :=
  {| app := app w; certForm := certForm w; projectForm := projectForm w;
     internshipForm := f (internshipForm w); resumeUpload := resumeUpload w;
     env := env w |}.
Definition on_resumeUpload (f : ResumeState.t -> ResumeState.t) (w : World)
  : World :=
  {| app := app w; certForm := certForm w; projectForm := projectForm w;
     internshipForm := internshipForm w; resumeUpload := f (resumeUpload w);
     env := env w |}.
Definition on_env (f : Env.t -> Env.t) (w : World) : World :=
  {| app := app w; certForm := certForm w; projectForm := projectForm w;
     internshipForm := internshipForm w; resumeUpload := resumeUpload w;
     env := f (env w) |}.

(* ================================================================== *)
(** * Handlers with [await] and [try]/[catch]: state and exceptions *)
(* ================================================================== *)

Module Eff.

Inductive Outcome (A : Type) : Type :=
| Returned (a : A)
| Thrown (e : Exn).
Arguments Returned {A} a.
Arguments Thrown {A} e.

Definition t (A : Type) : Type := World -> Outcome A * World.

Definition ret {A : Type} (a : A) : t A := fun w => (Returned a, w).

Definition bind {A B : Type} (m : t A) (k : A -> t B) : t B :=
  fun w =>
    match m w with
    | (Returned a, w') => k a w'
    | (Thrown e, w') => (Thrown e, w')
    end.

Definition throw {A : Type} (e : Exn) : t A := fun w => (Thrown e, w).

(** [try { m } catch (err) { h err }] *)
Definition try_catch {A : Type} (m : t A) (h : Exn -> t A) : t A :=
  fun w =>
    match m w with
    | (Returned a, w') => (Returned a, w')
    | (Thrown e, w') => h e w'
    end.

(** A state setter or any other effect that cannot throw. *)
Definition modify (f : World -> World) : t unit := fun w => (Returned tt, f w).

(** [for (const x of l) { body x }] *)
Fixpoint for_of {A : Type} (l : list A) (body : A -> t unit) : t unit :=
  match l with
  | [] => ret tt
  | x :: l' => bind (body x) (fun _ => for_of l' body)
  end.

(** [await fetch(url, ...)]: the request leaves, then the outcome decides. *)
Definition fetch {R : Type} (req : Request) (net : Net R) : t (option R) :=
  fun w =>
    let w' := on_env (Env.send req) w in
    match net with
    | Rejected => (Thrown FetchFailed, w')
    | Responded body => (Returned body, w')
    end.

(** [await res.json()] *)
Definition json {R : Type} (res : option R) : t R :=
  match res with
  | Some r => ret r
  | None => throw JsonParseFailed
  end.

Definition outcome {A : Type} (m : t A) (w : World) : Outcome A := fst (m w).
Definition exec {A : Type} (m : t A) (w : World) : World := snd (m w).

End Eff.

Declare Scope eff_scope.
Delimit Scope eff_scope with eff.
Notation "x <- c ;; k" := (Eff.bind c (fun x => k))
  (at level 100, c at next level, right associativity) : eff_scope.
Notation "c ;; k" := (Eff.bind c (fun _ => k))
  (at level 100, right associativity) : eff_scope.

(* ================================================================== *)
(** * [App.jsx]: the wizard controller *)
(* ================================================================== *)

Module App.

(** [STEPS]: id, label, weight ([null] for the results step). *)
Definition STEPS : list (nat * jsstring * option Z) :=
  [ (0, lit "Skills", Some 30%Z);
    (1, lit "Certifications", Some 15%Z);
    (2, lit "Projects", Some 25%Z);
    (3, lit "Internships", Some 20%Z);
    (4, lit "Resume", Some 10%Z);
    (5, lit "Results", None) ].

(** The [(key, value)] pairs [updateData] is called with. *)
Inductive Update : Type :=
| skills (v : list jsstring)
| certifications (v : list Certification.t)
| projects (v : list Project.t)
| internships (v : list Internship.t)
| resumeText (v : jsstring).

(** [{ ...prev, [key]: value }] *)
Definition assign (u : Update) (prev : Intake.t) : Intake.t :=
  match u with
  | skills v =>
      {| Intake.skills := v;
         Intake.certifications := Intake.certifications prev;
         Intake.projects := Intake.projects prev;
         Intake.internships := Intake.internships prev;
         Intake.resumeText := Intake.resumeText prev;
         Intake.resumeFile := Intake.resumeFile prev |}
  | certifications v =>
      {| Intake.skills := Intake.skills prev;
         Intake.certifications := v;
         Intake.projects := Intake.projects prev;
         Intake.internships := Intake.internships prev;
         Intake.resumeText := Intake.resumeText prev;
         Intake.resumeFile := Intake.resumeFile prev |}
  | projects v =>
      {| Intake.skills := Intake.skills prev;
         Intake.certifications := Intake.certifications prev;
         Intake.projects := v;
         Intake.internships := Intake.internships prev;
         Intake.resumeText := Intake.resumeText prev;
         Intake.resumeFile := Intake.resumeFile prev |}
  | internships v =>
      {| Intake.skills := Intake.skills prev;
         Intake.certifications := Intake.certifications prev;
         Intake.projects := Intake.projects prev;
         Intake.internships := v;
         Intake.resumeText := Intake.resumeText prev;
         Intake.resumeFile := Intake.resumeFile prev |}
  | resumeText v =>
      {| Intake.skills := Intake.skills prev;
         Intake.certifications := Intake.certifications prev;
         Intake.projects := Intake.projects prev;
         Intake.internships := Intake.internships prev;
         Intake.resumeText := Some v;
         Intake.resumeFile := Intake.resumeFile prev |}
  end.

(** [updateData = (key, value) =>
      setData(prev => ({ ...prev, [key]: value }))] *)
Definition updateData (u : Update) : World -> World :=
  on_app (AppState.setData (assign u)).

(** [api.js] *)
Definition API_BASE (e : Env.t) : jsstring := or_string (Env.VITE_API_URL e) [].
Definition apiUrl (e : Env.t) (path : jsstring) : jsstring :=
  API_BASE e ++ path.

(** The three [map] callbacks of the payload literal. *)
Definition cert_entry (c : Certification.t) : Payload.Cert.t :=
  {| Payload.Cert.name := Certification.name c;
     Payload.Cert.issuer := or_string (Certification.issuer c) [];
     Payload.Cert.year := or_number (Certification.year c) 2024 |}.

Definition project_entry (p : Project.t) : Payload.Project.t :=
  {| Payload.Project.title := Project.title p;
     Payload.Project.description := or_string (Project.description p) [];
     Payload.Project.tech_stack := or_array (Project.techStack p) [];
     Payload.Project.github_url := or_string (Project.githubUrl p) [] |}.

Definition internship_entry (i : Internship.t) : Payload.Internship.t :=
  {| Payload.Internship.company := Internship.company i;
     Payload.Internship.role := or_string (Internship.role i) [];
     Payload.Internship.duration_months :=
       or_number (Internship.durationMonths i) 1;
     Payload.Internship.achievements :=
       or_string (Internship.achievements i) [];
     Payload.Internship.has_certificate :=
       or_bool (Internship.hasCertificate i) false |}.

(** [const payload = { ... }] in [calculateScore]. *)
Definition payload (data : Intake.t) : Payload.t :=
  {| Payload.skills := Intake.skills data;
     Payload.certifications := map cert_entry (Intake.certifications data);
     Payload.projects := map project_entry (Intake.projects data);
     Payload.internships := map internship_entry (Intake.internships data);
     Payload.resume_text := or_string (Intake.resumeText data) [] |}.

(** [calculateScore]; [net] is what the scoring request will meet.  The
    closure reads the [data] of the render it was created in. *)
Definition calculateScore (net : Net Json) : Eff.t unit :=
  fun w0 =>
    let data := AppState.data (app w0) in
    (Eff.modify (on_app (AppState.setLoading true)) ;;
     Eff.try_catch
       (res <- Eff.fetch
                 (PostJson (apiUrl (env w0) (lit "/api/score/calculate"))
                           (payload data))
                 net ;;
        result <- Eff.json res ;;
        Eff.modify (on_app (AppState.setResults result)) ;;
        Eff.modify (on_app (AppState.setStep 5)))
       (fun err =>
          Eff.modify
            (on_env (Env.console_error (lit "Error calculating score:") err)) ;;
          Eff.modify
            (on_env (Env.alert (lit
               "Error connecting to backend. Make sure the FastAPI server is running on port 8000.")))) ;;
     Eff.modify (on_app (AppState.setLoading false)))%eff w0.

(** Stepper button [i]:
    [onClick={() => { if (i <= step || isDone) setStep(i); }}]
    with [isDone = i < step]. *)
Definition stepper_onClick (i : nat) (w : World) : World :=
  let step := AppState.step (app w) in
  let isDone := i <? step in
  if (i <=? step) || isDone then on_app (AppState.setStep i) w else w.

(** "Previous": [setStep(Math.max(0, step - 1))]; "Next": [setStep(step + 1)]. *)
Definition previous_onClick (w : World) : World :=
  on_app (AppState.setStep (Nat.max 0 (AppState.step (app w) - 1))) w.
Definition next_onClick (w : World) : World :=
  on_app (AppState.setStep (AppState.step (app w) + 1)) w.

End App.

(* ================================================================== *)
(** * [SkillsForm.jsx] *)
(* ================================================================== *)

Module SkillsForm.

(** Props: [skills = data.skills], [onChange = v => updateData('skills', v)]. *)
Definition skills (w : World) : list jsstring :=
  Intake.skills (AppState.data (app w)).
Definition onChange (v : list jsstring) : World -> World :=
  App.updateData (App.skills v).

(** [if (!skills.includes(skill)) onChange([...skills, skill])] *)
Definition addSkill (skill : jsstring) (w : World) : World :=
  if negb (includes (skills w) skill) then onChange (skills w ++ [skill]) w
  else w.

(** [onChange(skills.filter(s => s !== skill))] *)
Definition removeSkill (skill : jsstring) (w : World) : World :=
  onChange (filter (fun s => negb (JS.eqb s skill)) (skills w)) w.

(** The "Clear All" button: [onChange([])]. *)
Definition clearAll_onClick (w : World) : World := onChange [] w.

End SkillsForm.

(* ================================================================== *)
(** * [CertificationsForm.jsx] *)
(* ================================================================== *)

Module CertificationsForm.

Definition certs (w : World) : list Certification.t :=
  Intake.certifications (AppState.data (app w)).
Definition onChange (v : list Certification.t) : World -> World :=
  App.updateData (App.certifications v).

(** [addCert] *)
Definition addCert (w : World) : World :=
  let name := CertState.name (certForm w) in
  let issuer := CertState.issuer (certForm w) in
  let year := CertState.year (certForm w) in
  if negb (truthy_string (trim name)) then w
  else
    let w1 :=
      onChange (certs w ++ [ {| Certification.name := trim name;
                                Certification.issuer := Some (trim issuer);
                                Certification.year := Some year |} ]) w in
    on_certForm (CertState.setYear 2024)
      (on_certForm (CertState.setIssuer [])
         (on_certForm (CertState.setName []) w1)).

(** [removeCert = idx => onChange(certs.filter((_, i) => i !== idx))] *)
Definition removeCert (idx : nat) (w : World) : World :=
  onChange (filter_index (fun _ i => negb (i =? idx)) (certs w)) w.

(** The object the [catch] branch stores in [scanResult]. *)
Definition scan_error : ScanResult.t :=
  {| ScanResult.identified := None; ScanResult.cert_name := None;
     ScanResult.match_ := None; ScanResult.extracted_text_preview := None;
     ScanResult.error := Some (lit "Failed to scan certificate file.") |}.

(** [result.identified && result.cert_name], as a condition. *)
Definition identified_with_name (result : ScanResult.t) : option jsstring :=
  match ScanResult.identified result, ScanResult.cert_name result with
  | Some true, Some n => if truthy_string n then Some n else None
  | _, _ => None
  end.

(** [result.match?.tier_label || ''] *)
Definition tierLabel (result : ScanResult.t) : jsstring :=
  or_string
    (match ScanResult.match_ result with
     | Some m => ScanResult.tier_label m
     | None => None
     end) [].

(** The body of the [for ... of] loop for one file; [certs] is the list the
    [useCallback] closure captured. *)
Definition scan_file (certs : list Certification.t)
  (dropped : File.t * Net ScanResult.t) : Eff.t unit :=
  let (file, net) := dropped in
  (Eff.modify (on_certForm (CertState.setScanning true)) ;;
   Eff.modify (on_certForm (CertState.setScanResult None)) ;;
   Eff.try_catch
     (res <- Eff.fetch (PostFile (lit "/api/score/certifications/scan") file)
                       net ;;
      result <- Eff.json res ;;
      Eff.modify (on_certForm (CertState.setScanResult (Some result))) ;;
      match identified_with_name result with
      | Some certName =>
          Eff.modify
            (onChange (certs ++ [ {| Certification.name := certName;
                                     Certification.issuer :=
                                       Some (tierLabel result);
                                     Certification.year := Some 2024%Z |} ]))
      | None => Eff.ret tt
      end)
     (fun _ =>
        Eff.modify (on_certForm (CertState.setScanResult (Some scan_error)))) ;;
   Eff.modify (on_certForm (CertState.setScanning false)))%eff.

(** [onDrop]: each accepted file comes with the outcome its scan request
    will meet. *)
Definition onDrop (acceptedFiles : list (File.t * Net ScanResult.t))
  : Eff.t unit :=
  fun w0 => Eff.for_of acceptedFiles (scan_file (certs w0)) w0.

(** What the scan card shows as an error:
    [{scanResult.error && <p>{scanResult.error}</p>}]. *)
Definition inline_error (s : CertState.t) : option jsstring :=
  match CertState.scanResult s with
  | Some r =>
      match ScanResult.error r with
      | Some e => if truthy_string e then Some e else None
      | None => None
      end
  | None => None
  end.

End CertificationsForm.

(* ================================================================== *)
(** * [ProjectsForm] *)
(* ================================================================== *)

Module ProjectsForm.

Definition projects (w : World) : list Project.t :=
  Intake.projects (AppState.data (app w)).
Definition onChange (v : list Project.t) : World -> World :=
  App.updateData (App.projects v).

(** [form.techStack.split(',').map(s => s.trim()).filter(Boolean)] *)
Definition tech_stack_of (text : jsstring) : list jsstring :=
  filter truthy_string (map trim (split comma text)).

(** The record [addProject] builds from the form. *)
Definition record_of (form : ProjectState.t) : Project.t :=
  {| Project.title := trim (ProjectState.title form);
     Project.description := Some (trim (ProjectState.description form));
     Project.techStack := Some (tech_stack_of (ProjectState.techStack form));
     Project.githubUrl := Some (trim (ProjectState.githubUrl form)) |}.

(** [addProject] *)
Definition addProject (w : World) : World :=
  let form := projectForm w in
  if negb (truthy_string (trim (ProjectState.title form))) then w
  else
    let w1 := onChange (projects w ++ [record_of form]) w in
    on_projectForm (fun _ => ProjectState.initial) w1.

(** [removeProject] *)
Definition removeProject (idx : nat) (w : World) : World :=
  onChange (filter_index (fun _ i => negb (i =? idx)) (projects w)) w.

End ProjectsForm.

(* ================================================================== *)
(** * [InternshipsForm] *)
(* ================================================================== *)

Module InternshipsForm.

Definition internships (w : World) : list Internship.t :=
  Intake.internships (AppState.data (app w)).
Definition onChange (v : list Internship.t) : World -> World :=
  App.updateData (App.internships v).

(** [{ ...form, company: form.company.trim(), role: form.role.trim(),
       achievements: form.achievements.trim() }] *)
Definition record_of (form : InternshipState.t) : Internship.t :=
  {| Internship.company := trim (InternshipState.company form);
     Internship.role := Some (trim (InternshipState.role form));
     Internship.durationMonths := Some (InternshipState.durationMonths form);
     Internship.achievements :=
       Some (trim (InternshipState.achievements form));
     Internship.hasCertificate := Some (InternshipState.hasCertificate form) |}.

(** [addInternship] *)
Definition addInternship (w : World) : World :=
  let form := internshipForm w in
  if negb (truthy_string (trim (InternshipState.company form))) then w
  else
    let w1 := onChange (internships w ++ [record_of form]) w in
    on_internshipForm (fun _ => InternshipState.initial) w1.

(** [removeInternship] *)
Definition removeInternship (idx : nat) (w : World) : World :=
  onChange (filter_index (fun _ i => negb (i =? idx)) (internships w)) w.

(** The duration input:
    [setForm({ ...form, durationMonths: parseInt(e.target.value) || 1 })];
    [parsed] is [None] when [parseInt] yields [NaN]. *)
Definition durationMonths_onChange (parsed : option Z) (w : World) : World :=
  on_internshipForm
    (fun form =>
       {| InternshipState.company := InternshipState.company form;
          InternshipState.role := InternshipState.role form;
          InternshipState.durationMonths := or_number parsed 1;
          InternshipState.achievements := InternshipState.achievements form;
          InternshipState.hasCertificate :=
            InternshipState.hasCertificate form |}) w.

End InternshipsForm.

(* ================================================================== *)
(** * [ResumeUpload] *)
(* ================================================================== *)

Module ResumeUpload.

Definition onChange (v : jsstring) : World -> World :=
  App.updateData (App.resumeText v).

(** [result.total_words ? ... : ...] *)
Definition has_words (result : ResumeScan.t) : bool :=
  match ResumeScan.total_words result with
  | Some n => truthy_number n
  | None => false
  end.

(** The text the [onload] closure passes to [onChange]:
    [result.total_words
       ? `[Resume uploaded: ${file.name}]\n` + (result.suggestions?.join('\n') || '')
       : ''] *)
Definition marker (result : ResumeScan.t) (file : File.t) : jsstring :=
  if has_words result then
    (lit "[Resume uploaded: " ++ File.name file ++ lit "]" ++ [newline])
      ++ or_string (option_map (join [newline]) (ResumeScan.suggestions result))
                   []
  else [].

(** [reader.onload = () => { onChange(...) }] *)
Definition reader_onload (r : Reader) : World -> World :=
  onChange (marker (reader_result r) (reader_file r)).

(** [onDrop]; [net] is what the scan request will meet. *)
Definition onDrop (acceptedFiles : list File.t) (net : Net ResumeScan.t)
  : Eff.t unit :=
  match acceptedFiles with
  | [] => Eff.ret tt
  | file :: _ =>
      (Eff.modify (on_resumeUpload (ResumeState.setUploading true)) ;;
       Eff.modify (on_resumeUpload (ResumeState.setFileName (File.name file))) ;;
       Eff.try_catch
         (res <- Eff.fetch (PostFile (lit "/api/score/resume") file) net ;;
          result <- Eff.json res ;;
          Eff.modify (on_resumeUpload (ResumeState.setPreview (Some result))) ;;
          Eff.modify
            (fun w =>
               on_env (Env.setReaders
                         (Env.readers (env w) ++ [mkReader result file])) w))
         (fun err =>
            Eff.modify (on_env (Env.console_error (lit "Upload error:") err))) ;;
       Eff.modify (on_resumeUpload (ResumeState.setUploading false)))%eff
  end.

(** The event a pending [FileReader] ends with. *)
Inductive ReaderEvent : Type :=
| load
| error.

(** The event loop delivers the end of the oldest pending read: [load] runs
    the [onload] closure; no handler is registered for [error]. *)
Definition deliver (ev : ReaderEvent) (w : World) : World :=
  match Env.readers (env w) with
  | [] => w
  | r :: rest =>
      let w' := on_env (Env.setReaders rest) w in
      match ev with
      | load => reader_onload r w'
      | error => w'
      end
  end.

(** The textarea: [onChange={e => onChange(e.target.value)}]. *)
Definition textarea_onChange (value : jsstring) : World -> World :=
  onChange value.

End ResumeUpload.

(* ================================================================== *)
(** * Predicates used in the statements *)
(* ================================================================== *)

(** A string is blank when it is empty or made of white space only. *)
Definition blank (s : jsstring) : bool := forallb is_white_space s.

(** A string that does not start with white space; [trim] returns strings
    that neither start nor end with it. *)
Definition starts_clean (s : jsstring) : Prop :=
  match s with [] => True | c :: _ => is_white_space c = false end.

(** [l'] is [l] without position [idx]: one element shorter, the elements
    before [idx] stay where they were, the ones after move down by one. *)
Definition removed_at {A : Type} (idx : nat) (l l' : list A) : Prop :=
  List.length l' = List.length l - 1
  /\ (forall j, j < idx -> nth_error l' j = nth_error l j)
  /\ (forall j, idx <= j -> nth_error l' j = nth_error l (S j)).

(** The tech-stack text cut at its commas: the pieces joined with commas give
    the text back and no piece holds a comma. *)
Definition comma_segments (text : jsstring) (segs : list jsstring) : Prop :=
  join [comma] segs = text /\ Forall (fun seg => ~ In comma seg) segs.


(* ================================================================== *)
(** * Sample states *)
(* ================================================================== *)

Module Sample.

Definition file_cv : File.t := {| File.name := lit "cv.pdf" |}.


(** Records that carry their required property only. *)
Definition cert_bare : Certification.t :=
  {| Certification.name := lit "CKA";
     Certification.issuer := None; Certification.year := None |}.
Definition project_bare : Project.t :=
  {| Project.title := lit "Compiler";
     Project.description := None; Project.techStack := None;
     Project.githubUrl := None |}.
Definition internship_bare : Internship.t :=
  {| Internship.company := lit "Acme";
     Internship.role := None; Internship.durationMonths := None;
     Internship.achievements := None; Internship.hasCertificate := None |}.

Definition data_bare : Intake.t :=
  {| Intake.skills := [lit "Python"];
     Intake.certifications := [cert_bare];
     Intake.projects := [project_bare];
     Intake.internships := [internship_bare];
     Intake.resumeText := None;
     Intake.resumeFile := None |}.

(** The wizard on the resume step with one bare record per category. *)
Definition world_resume_step : World :=
  on_app (fun _ => {| AppState.step := 4; AppState.data := data_bare;
                      AppState.results := JNull; AppState.loading := false |})
    initial_world.

(** The same, after the user pasted a resume and once dropped [cv.pdf]. *)
Definition world_pasted : World :=
  on_resumeUpload (ResumeState.setFileName (lit "cv.pdf"))
    (App.updateData (App.resumeText (lit "Ten years of Rocq."))
       world_resume_step).

(** The project form filled in by hand. *)
Definition world_project_typed : World :=
  on_projectForm
    (fun _ => {| ProjectState.title := lit "  Shop ";
                 ProjectState.description := lit " A store. ";
                 ProjectState.techStack := lit "React, ,Node.js ,, AWS";
                 ProjectState.githubUrl := lit " https://github.com/u/shop" |})
    initial_world.

Definition scan_aws : ScanResult.t :=
  {| ScanResult.identified := Some true;
     ScanResult.cert_name := Some (lit "AWS Certified");
     ScanResult.match_ :=
       Some {| ScanResult.tier := Some (lit "gold");
               ScanResult.tier_label := Some (lit "Gold Tier") |};
     ScanResult.extracted_text_preview := None;
     ScanResult.error := None |}.

Definition file_cert : File.t := {| File.name := lit "aws.pdf" |}.
Definition file_cert2 : File.t := {| File.name := lit "cka.pdf" |}.

Definition scan_cka : ScanResult.t :=
  {| ScanResult.identified := Some true;
     ScanResult.cert_name := Some (lit "CKA");
     ScanResult.match_ := None;
     ScanResult.extracted_text_preview := None;
     ScanResult.error := None |}.

Definition scan_empty_resume : ResumeScan.t :=
  {| ResumeScan.score := Some 0%Z; ResumeScan.section_scores := None;
     ResumeScan.total_words := Some 0%Z; ResumeScan.suggestions := Some [] |}.

End Sample.

(* ================================================================== *)
(** * Results view and resume preview: the score bands *)
(* ================================================================== *)

From Stdlib Require QArith.

(** A JavaScript number as far as a comparison can tell: not-a-number, an
    infinity, or a finite value (every finite double is a rational). *)
Module Num.
Inductive t : Type :=
| NaN
| NegInf
| PosInf
| Fin (q : QArith_base.Q).

Definition of_Z (n : Z) : t := Fin (QArith_base.inject_Z n).

(** [x >= y]; any comparison with [NaN] is false. *)
Definition ge (x y : t) : bool :=
  match x, y with
  | NaN, _ | _, NaN => false
  | PosInf, _ => true
  | _, NegInf => true
  | NegInf, _ => false
  | Fin _, PosInf => false
  | Fin p, Fin q => QArith_base.Qle_bool q p
  end.
End Num.

(** [ResultsDashboard]: constants and [getColor]. *)
Module ResultsDashboard.

Definition WEIGHTS : list (jsstring * Z) :=
  [ (lit "skills", 30%Z); (lit "certifications", 15%Z);
    (lit "projects", 25%Z); (lit "internships", 20%Z);
    (lit "resume", 10%Z) ].

(** [getColor = s => s >= 80 ? '#10b981' : s >= 60 ? '#eab308'
                     : s >= 40 ? '#f97316' : '#ef4444'] *)
Definition getColor (s : Num.t) : jsstring :=
  if Num.ge s (Num.of_Z 80) then lit "#10b981"
  else if Num.ge s (Num.of_Z 60) then lit "#eab308"
  else if Num.ge s (Num.of_Z 40) then lit "#f97316"
  else lit "#ef4444".

End ResultsDashboard.

(** [ResumeUpload]: its own copy of the banding, [getScoreColor]. *)
Module ResumePreview.

Definition getScoreColor (s : Num.t) : jsstring :=
  if Num.ge s (Num.of_Z 80) then lit "#10b981"
  else if Num.ge s (Num.of_Z 60) then lit "#eab308"
  else if Num.ge s (Num.of_Z 40) then lit "#f97316"
  else lit "#ef4444".

End ResumePreview.

(* ================================================================== *)
(** * [SkillsForm.jsx]: the skill catalogue and the search box *)
(* ================================================================== *)

Module SkillsCatalog.

(** One entry of the [/api/skills] response. *)
Record Info : Type := mkInfo
  { icon : jsstring;
    skills : list jsstring }.

(** The [allSkills], [search] and [loading] cells; [allSkills] is an object
    read through [Object.entries], hence a list of pairs in key order. *)
Record t : Type := mk
  { allSkills : list (jsstring * Info);
    search : jsstring;
    loading : bool }.

Definition initial : t :=
  {| allSkills := []; search := []; loading := true |}.

Definition setAllSkills (v : list (jsstring * Info)) (s : t) : t :=
  {| allSkills := v; search := search s; loading := loading s |}.
Definition setSearch (v : jsstring) (s : t) : t :=
  {| allSkills := allSkills s; search := v; loading := loading s |}.
Definition setLoading (v : bool) (s : t) : t :=
  {| allSkills := allSkills s; search := search s; loading := v |}.

(** The mount effect:
    [fetch(apiUrl('/api/skills')).then(r => r.json())
       .then(data => { setAllSkills(data); setLoading(false); })
       .catch(() => setLoading(false))] *)
Definition mount_effect (net : Net (list (jsstring * Info))) (s : t) : t :=
  match net with
  | Responded (Some data) => setLoading false (setAllSkills data s)
  | Responded None => setLoading false s
  | Rejected => setLoading false s
  end.

(** [s.startsWith(sub)] and [s.includes(sub)] on strings. *)
Fixpoint starts_with (sub s : jsstring) : bool :=
  match sub, s with
  | [], _ => true
  | _ :: _, [] => false
  | c :: sub', d :: s' => (c =? d)%N && starts_with sub' s'
  end.

Fixpoint str_includes (s sub : jsstring) : bool :=
  starts_with sub s
  || match s with
     | [] => false
     | _ :: s' => str_includes s' sub
     end.

(** One element of [filteredCategories]. *)
Record Offer : Type := mkOffer
  { cat : jsstring;
    offer_icon : jsstring;
    offered : list jsstring;
    total : nat }.

(** [filteredCategories]; [toLowerCase] is the built-in case mapping and
    [selected] the [skills] prop. *)
Definition filteredCategories (toLowerCase : jsstring -> jsstring)
  (s : t) (selected : list jsstring) : list Offer :=
  filter
    (fun c => (0 <? List.length (offered c))
              || match search s with [] => true | _ :: _ => false end)
    (map
       (fun entry : jsstring * Info =>
          let (category, info) := entry in
          {| cat := category;
             offer_icon := icon info;
             offered :=
               filter
                 (fun sk =>
                    str_includes (toLowerCase sk) (toLowerCase (search s))
                    && negb (includes selected sk))
                 (skills info);
             total := List.length (skills info) |})
       (allSkills s)).

End SkillsCatalog.

(* ================================================================== *)
(** * The page as a whole: which handler each control is wired to *)
(* ================================================================== *)

Module Wizard.

(** [setForm({ ...form, <field>: e.target.value })] of [ProjectsForm]. *)
Definition project_title (v : jsstring) (f : ProjectState.t) : ProjectState.t :=
  {| ProjectState.title := v;
     ProjectState.description := ProjectState.description f;
     ProjectState.techStack := ProjectState.techStack f;
     ProjectState.githubUrl := ProjectState.githubUrl f |}.
Definition project_description (v : jsstring) (f : ProjectState.t)
  : ProjectState.t :=
  {| ProjectState.title := ProjectState.title f;
     ProjectState.description := v;
     ProjectState.techStack := ProjectState.techStack f;
     ProjectState.githubUrl := ProjectState.githubUrl f |}.
Definition project_techStack (v : jsstring) (f : ProjectState.t)
  : ProjectState.t :=
  {| ProjectState.title := ProjectState.title f;
     ProjectState.description := ProjectState.description f;
     ProjectState.techStack := v;
     ProjectState.githubUrl := ProjectState.githubUrl f |}.
Definition project_githubUrl (v : jsstring) (f : ProjectState.t)
  : ProjectState.t :=
  {| ProjectState.title := ProjectState.title f;
     ProjectState.description := ProjectState.description f;
     ProjectState.techStack := ProjectState.techStack f;
     ProjectState.githubUrl := v |}.

(** The same for the text and checkbox inputs of [InternshipsForm]. *)
Definition internship_company (v : jsstring) (f : InternshipState.t)
  : InternshipState.t :=
  {| InternshipState.company := v;
     InternshipState.role := InternshipState.role f;
     InternshipState.durationMonths := InternshipState.durationMonths f;
     InternshipState.achievements := InternshipState.achievements f;
     InternshipState.hasCertificate := InternshipState.hasCertificate f |}.
Definition internship_role (v : jsstring) (f : InternshipState.t)
  : InternshipState.t :=
  {| InternshipState.company := InternshipState.company f;
     InternshipState.role := v;
     InternshipState.durationMonths := InternshipState.durationMonths f;
     InternshipState.achievements := InternshipState.achievements f;
     InternshipState.hasCertificate := InternshipState.hasCertificate f |}.
Definition internship_achievements (v : jsstring) (f : InternshipState.t)
  : InternshipState.t :=
  {| InternshipState.company := InternshipState.company f;
     InternshipState.role := InternshipState.role f;
     InternshipState.durationMonths := InternshipState.durationMonths f;
     InternshipState.achievements := v;
     InternshipState.hasCertificate := InternshipState.hasCertificate f |}.
Definition internship_hasCertificate (v : bool) (f : InternshipState.t)
  : InternshipState.t :=
  {| InternshipState.company := InternshipState.company f;
     InternshipState.role := InternshipState.role f;
     InternshipState.durationMonths := InternshipState.durationMonths f;
     InternshipState.achievements := InternshipState.achievements f;
     InternshipState.hasCertificate := v |}.

(** ** Handlers that wait for the network, cut at their [await]

    Each such handler runs up to the point where its request is sent, then
    is suspended; other events are handled meanwhile; it goes on when the
    outcome arrives.  Between [await fetch(...)] and [await res.json()] no
    state is written, so the two waits count as one.  A form that was
    unmounted while its handler waited ignores the handler's later state
    updates ([mounted] false); the parent's [onChange] still applies. *)

(** The outcome of the awaited request, back in the handler. *)
Definition arrive {R : Type} (net : Net R) : Eff.t (option R) :=
  match net with
  | Rejected => Eff.throw FetchFailed
  | Responded body => Eff.ret body
  end.

(** [calculateScore] up to the request. *)
Definition calculateScore_start : Eff.t unit :=
  fun w0 =>
    (Eff.modify (on_app (AppState.setLoading true)) ;;
     Eff.modify
       (on_env (Env.send
                  (PostJson (App.apiUrl (env w0) (lit "/api/score/calculate"))
                            (App.payload (AppState.data (app w0)))))))%eff w0.

(** [calculateScore] from the outcome on. *)
Definition calculateScore_finish (net : Net Json) : Eff.t unit :=
  (Eff.try_catch
     (res <- arrive net ;;
      result <- Eff.json res ;;
      Eff.modify (on_app (AppState.setResults result)) ;;
      Eff.modify (on_app (AppState.setStep 5)))
     (fun err =>
        Eff.modify
          (on_env (Env.console_error (lit "Error calculating score:") err)) ;;
        Eff.modify
          (on_env (Env.alert (lit
             "Error connecting to backend. Make sure the FastAPI server is running on port 8000.")))) ;;
   Eff.modify (on_app (AppState.setLoading false)))%eff.

(** A state update of [CertificationsForm] or [ResumeUpload], dropped when
    the form is no longer mounted. *)
Definition setCert (mounted : bool) (f : CertState.t -> CertState.t)
  : Eff.t unit :=
  if mounted then Eff.modify (on_certForm f) else Eff.ret tt.
Definition setResume (mounted : bool) (f : ResumeState.t -> ResumeState.t)
  : Eff.t unit :=
  if mounted then Eff.modify (on_resumeUpload f) else Eff.ret tt.

(** The loop body of the certificate [onDrop] up to the request. *)
Definition scan_start (mounted : bool) (file : File.t) : Eff.t unit :=
  (setCert mounted (CertState.setScanning true) ;;
   setCert mounted (CertState.setScanResult None) ;;
   Eff.modify
     (on_env (Env.send (PostFile (lit "/api/score/certifications/scan")
                                 file))))%eff.

(** The loop body from the outcome on; [certs] is the captured list. *)
Definition scan_finish (mounted : bool) (certs : list Certification.t)
  (net : Net ScanResult.t) : Eff.t unit :=
  (Eff.try_catch
     (res <- arrive net ;;
      result <- Eff.json res ;;
      setCert mounted (CertState.setScanResult (Some result)) ;;
      match CertificationsForm.identified_with_name result with
      | Some certName =>
          Eff.modify
            (CertificationsForm.onChange
               (certs ++ [ {| Certification.name := certName;
                              Certification.issuer :=
                                Some (CertificationsForm.tierLabel result);
                              Certification.year := Some 2024%Z |} ]))
      | None => Eff.ret tt
      end)
     (fun _ =>
        setCert mounted
          (CertState.setScanResult (Some CertificationsForm.scan_error))) ;;
   setCert mounted (CertState.setScanning false))%eff.

(** The resume [onDrop] up to the request, for its first file. *)
Definition upload_start (file : File.t) : Eff.t unit :=
  (Eff.modify (on_resumeUpload (ResumeState.setUploading true)) ;;
   Eff.modify (on_resumeUpload (ResumeState.setFileName (File.name file))) ;;
   Eff.modify
     (on_env (Env.send (PostFile (lit "/api/score/resume") file))))%eff.

(** The resume [onDrop] from the outcome on. *)
Definition upload_finish (mounted : bool) (file : File.t)
  (net : Net ResumeScan.t) : Eff.t unit :=
  (Eff.try_catch
     (res <- arrive net ;;
      result <- Eff.json res ;;
      setResume mounted (ResumeState.setPreview (Some result)) ;;
      Eff.modify
        (fun w =>
           on_env (Env.setReaders
                     (Env.readers (env w) ++ [mkReader result file])) w))
     (fun err =>
        Eff.modify (on_env (Env.console_error (lit "Upload error:") err))) ;;
   setResume mounted (ResumeState.setUploading false))%eff.

(** A suspended handler and what its closure holds. *)
Inductive Task : Type :=
| ScoreTask
| ScanTask (mounted : bool) (certs : list Certification.t) (file : File.t)
           (rest : list File.t)
| ResumeTask (mounted : bool) (file : File.t).

(** The page: the state cells and the handlers waiting for the network. *)
Record Page : Type := mkPage
  { world : World;
    pending : list Task }.

Definition initial_page : Page := {| world := initial_world; pending := [] |}.

(** The outcome of a request, by kind of request. *)
Inductive Arrival : Type :=
| ScoreArrival (net : Net Json)
| ScanArrival (net : Net ScanResult.t)
| ResumeArrival (net : Net ResumeScan.t).

(** What the user, the network or a finished file read can do to the page. *)
Inductive Event : Type :=
(* App.jsx *)
| StepperClick (i : nat)
| PreviousClick
| NextClick
| CalculateClick
(* SkillsForm *)
| SkillAdd (skill : jsstring)
| SkillRemove (skill : jsstring)
| SkillsClear
(* CertificationsForm *)
| CertNameInput (v : jsstring)
| CertIssuerInput (v : jsstring)
| CertAdd
| CertRemove (idx : nat)
| CertDrop (acceptedFiles : list File.t)
(* ProjectsForm *)
| ProjectTitleInput (v : jsstring)
| ProjectGithubInput (v : jsstring)
| ProjectTechInput (v : jsstring)
| ProjectDescriptionInput (v : jsstring)
| ProjectAdd
| ProjectRemove (idx : nat)
(* InternshipsForm *)
| InternCompanyInput (v : jsstring)
| InternRoleInput (v : jsstring)
| InternDurationInput (parsed : option Z)
| InternCertificateInput (checked : bool)
| InternAchievementsInput (v : jsstring)
| InternAdd
| InternRemove (idx : nat)
(* ResumeUpload *)
| ResumeDrop (acceptedFiles : list File.t)
| ResumeTextInput (v : jsstring)
| ReaderDone (ev : ResumeUpload.ReaderEvent)
(* the outcome of the [k]-th pending request arrives *)
| Arrive (k : nat) (a : Arrival)
(* ResultsDashboard: "Start New Assessment", [window.location.reload()] *)
| Reload.

(** [renderStep]: the form on screen; [None] is the [default: return null]. *)
Inductive Screen : Type :=
| SkillsScreen
| CertificationsScreen
| ProjectsScreen
| InternshipsScreen
| ResumeScreen
| ResultsScreen.

Definition renderStep (w : World) : option Screen :=
  match AppState.step (app w) with
  | 0 => Some SkillsScreen
  | 1 => Some CertificationsScreen
  | 2 => Some ProjectsScreen
  | 3 => Some InternshipsScreen
  | 4 => Some ResumeScreen
  | 5 => Some ResultsScreen
  | _ => None
  end.

(** [!results] is false: the results view shows the report, and with it the
    "Start New Assessment" button, instead of the placeholder. *)
Definition has_report (w : World) : bool :=
  match AppState.results (app w) with
  | JNull => false
  | JBool b => b
  | JNum n => truthy_number n
  | JStr s => truthy_string s
  | JArr _ => true
  | JObj _ => true
  end.

(** Whether an outcome can arrive for a pending handler. *)
Definition awaited (t : option Task) (a : Arrival) : bool :=
  match t, a with
  | Some ScoreTask, ScoreArrival _ => true
  | Some (ScanTask _ _ _ _), ScanArrival _ => true
  | Some (ResumeTask _ _), ResumeArrival _ => true
  | _, _ => false
  end.

(** Whether the control behind an event is on screen and not disabled.
    The navigation buttons are rendered while [step < 5]; "Previous" is
    disabled on step 0; "Next" shows while [step < 4], the submit button
    otherwise, disabled while [loading]; each form's controls exist on its
    own step; the add buttons are disabled while the required field is
    blank; remove buttons exist per listed record, "Clear All" and the skill
    tags while skills are selected ([SkillAdd] stands for a click on any
    offered skill; the catalogue offers unselected skills only, any skill is
    allowed here).  An outcome arrives only for a request that is pending.  Reloading the page starts over: every cell is back to
    its initial value and the waiting handlers are gone. *)
Definition enabled (ev : Event) (p : Page) : bool :=
  let w := world p in
  let step := AppState.step (app w) in
  match ev with
  | StepperClick i => i <? List.length App.STEPS
  | PreviousClick => (step <? 5) && negb (step =? 0)
  | NextClick => (step <? 5) && (step <? 4)
  | CalculateClick =>
      (step <? 5) && negb (step <? 4) && negb (AppState.loading (app w))
  | SkillAdd _ => step =? 0
  | SkillRemove skill => (step =? 0) && includes (SkillsForm.skills w) skill
  | SkillsClear => (step =? 0) && (0 <? List.length (SkillsForm.skills w))
  | CertNameInput _ | CertIssuerInput _ | CertDrop _ => step =? 1
  | CertAdd =>
      (step =? 1) && truthy_string (trim (CertState.name (certForm w)))
  | CertRemove idx =>
      (step =? 1) && (idx <? List.length (CertificationsForm.certs w))
  | ProjectTitleInput _ | ProjectGithubInput _ | ProjectTechInput _
  | ProjectDescriptionInput _ => step =? 2
  | ProjectAdd =>
      (step =? 2) && truthy_string (trim (ProjectState.title (projectForm w)))
  | ProjectRemove idx =>
      (step =? 2) && (idx <? List.length (ProjectsForm.projects w))
  | InternCompanyInput _ | InternRoleInput _ | InternDurationInput _
  | InternCertificateInput _ | InternAchievementsInput _ => step =? 3
  | InternAdd =>
      (step =? 3)
      && truthy_string (trim (InternshipState.company (internshipForm w)))
  | InternRemove idx =>
      (step =? 3) && (idx <? List.length (InternshipsForm.internships w))
  | ResumeDrop _ | ResumeTextInput _ => step =? 4
  | ReaderDone _ => 0 <? List.length (Env.readers (env w))
  | Arrive k a => awaited (nth_error (pending p) k) a
  | Reload => (step =? 5) && has_report w
  end.

(** A handler that neither waits nor is waited for: only the state cells
    change. *)
Definition now (f : World -> World) (p : Page) : Page :=
  {| world := f (world p); pending := pending p |}.

(** The pending list without its [k]-th entry, or with that entry replaced. *)
Definition without (k : nat) (ts : list Task) : list Task :=
  firstn k ts ++ skipn (S k) ts.
Definition replaced (k : nat) (t : Task) (ts : list Task) : list Task :=
  firstn k ts ++ t :: skipn (S k) ts.

(** The outcome [a] arrives for the [k]-th pending handler, which goes on:
    [calculateScore] and the resume [onDrop] run to their end; the
    certificate [onDrop] finishes the current file and, if files remain,
    sends the request for the next one and waits again. *)
Definition resume_task (k : nat) (a : Arrival) (p : Page) : Page :=
  match nth_error (pending p) k, a with
  | Some ScoreTask, ScoreArrival net =>
      {| world := Eff.exec (calculateScore_finish net) (world p);
         pending := without k (pending p) |}
  | Some (ScanTask mounted certs file rest), ScanArrival net =>
      let w1 := Eff.exec (scan_finish mounted certs net) (world p) in
      match rest with
      | [] => {| world := w1; pending := without k (pending p) |}
      | next :: rest' =>
          {| world := Eff.exec (scan_start mounted next) w1;
             pending :=
               replaced k (ScanTask mounted certs next rest') (pending p) |}
      end
  | Some (ResumeTask mounted file), ResumeArrival net =>
      {| world := Eff.exec (upload_finish mounted file net) (world p);
         pending := without k (pending p) |}
  | _, _ => p
  end.

(** The handler behind each control; the ones that send a request run up to
    it and are added to the pending handlers. *)
Definition dispatch (ev : Event) (p : Page) : Page :=
  let w := world p in
  match ev with
  | StepperClick i => now (App.stepper_onClick i) p
  | PreviousClick => now App.previous_onClick p
  | NextClick => now App.next_onClick p
  | CalculateClick =>
      {| world := Eff.exec calculateScore_start w;
         pending := pending p ++ [ScoreTask] |}
  | SkillAdd skill => now (SkillsForm.addSkill skill) p
  | SkillRemove skill => now (SkillsForm.removeSkill skill) p
  | SkillsClear => now SkillsForm.clearAll_onClick p
  | CertNameInput v => now (on_certForm (CertState.setName v)) p
  | CertIssuerInput v => now (on_certForm (CertState.setIssuer v)) p
  | CertAdd => now CertificationsForm.addCert p
  | CertRemove idx => now (CertificationsForm.removeCert idx) p
  | CertDrop acceptedFiles =>
      match acceptedFiles with
      | [] => p
      | file :: rest =>
          {| world := Eff.exec (scan_start true file) w;
             pending :=
               pending p
               ++ [ScanTask true (CertificationsForm.certs w) file rest] |}
      end
  | ProjectTitleInput v => now (on_projectForm (project_title v)) p
  | ProjectGithubInput v => now (on_projectForm (project_githubUrl v)) p
  | ProjectTechInput v => now (on_projectForm (project_techStack v)) p
  | ProjectDescriptionInput v =>
      now (on_projectForm (project_description v)) p
  | ProjectAdd => now ProjectsForm.addProject p
  | ProjectRemove idx => now (ProjectsForm.removeProject idx) p
  | InternCompanyInput v => now (on_internshipForm (internship_company v)) p
  | InternRoleInput v => now (on_internshipForm (internship_role v)) p
  | InternDurationInput parsed =>
      now (InternshipsForm.durationMonths_onChange parsed) p
  | InternCertificateInput checked =>
      now (on_internshipForm (internship_hasCertificate checked)) p
  | InternAchievementsInput v =>
      now (on_internshipForm (internship_achievements v)) p
  | InternAdd => now InternshipsForm.addInternship p
  | InternRemove idx => now (InternshipsForm.removeInternship idx) p
  | ResumeDrop acceptedFiles =>
      match acceptedFiles with
      | [] => p
      | file :: _ =>
          {| world := Eff.exec (upload_start file) w;
             pending := pending p ++ [ResumeTask true file] |}
      end
  | ResumeTextInput v => now (ResumeUpload.textarea_onChange v) p
  | ReaderDone ev => now (ResumeUpload.deliver ev) p
  | Arrive k a => resume_task k a p
  | Reload => initial_page
  end.

(** A pending handler whose form has been unmounted. *)
Definition unmounted (t : Task) : Task :=
  match t with
  | ScoreTask => ScoreTask
  | ScanTask _ certs file rest => ScanTask false certs file rest
  | ResumeTask _ file => ResumeTask false file
  end.

(** [<main key={step}>{renderStep()}</main>]: when the cursor changes, the
    form on screen is unmounted and the next one starts from its initial
    state; handlers of the unmounted form that are still waiting keep
    running without it. *)
Definition remount (before after : Page) : Page :=
  if AppState.step (app (world before)) =? AppState.step (app (world after))
  then after
  else
    {| world :=
         {| app := app (world after);
            certForm := CertState.initial;
            projectForm := ProjectState.initial;
            internshipForm := InternshipState.initial;
            resumeUpload := ResumeState.initial;
            env := env (world after) |};
       pending := map unmounted (pending after) |}.

Definition handle (ev : Event) (p : Page) : Page := remount p (dispatch ev p).

(** Events whose control is absent or disabled do nothing. *)
Fixpoint run (evs : list Event) (p : Page) : Page :=
  match evs with
  | [] => p
  | ev :: rest => run rest (if enabled ev p then handle ev p else p)
  end.

(** The states the page can be in. *)
Inductive reachable : Page -> Prop :=
| reach_initial : reachable initial_page
| reach_event (ev : Event) (p : Page) :
    reachable p -> enabled ev p = true -> reachable (handle ev p).

(** The scoring requests in flight. *)
Definition scoring_in_flight (p : Page) : nat :=
  List.length
    (filter (fun t => match t with ScoreTask => true | _ => false end)
            (pending p)).

End Wizard.

(** The records the forms can produce. *)
Definition cert_ok (c : Certification.t) : Prop :=
  Certification.name c <> []
  /\ Certification.year c = Some 2024%Z
  /\ Certification.issuer c <> None.

Definition project_ok (p : Project.t) : Prop :=
  Project.title p <> [] /\ trim (Project.title p) = Project.title p
  /\ Project.description p <> None
  /\ Project.githubUrl p <> None
  /\ exists stack, Project.techStack p = Some stack
                   /\ Forall (fun s => s <> [] /\ trim s = s /\ ~ In comma s)
                             stack.

Definition internship_ok (i : Internship.t) : Prop :=
  Internship.company i <> []
  /\ trim (Internship.company i) = Internship.company i
  /\ Internship.role i <> None
  /\ Internship.achievements i <> None
  /\ Internship.hasCertificate i <> None
  /\ exists n, Internship.durationMonths i = Some n /\ n <> 0%Z.

(** The colour bands, worst to best. *)
Definition band (colour : jsstring) : nat :=
  if JS.eqb colour (lit "#10b981") then 3
  else if JS.eqb colour (lit "#eab308") then 2
  else if JS.eqb colour (lit "#f97316") then 1
  else 0.

(** [x <= y] on numbers; false when either is [NaN]. *)
Definition num_le (x y : Num.t) : Prop := Num.ge y x = true.

(** The record a scan response stands for, if it is identified. *)
Definition scanned_cert (dropped : File.t * Net ScanResult.t)
  : option Certification.t :=
  match snd dropped with
  | Responded (Some r) =>
      match CertificationsForm.identified_with_name r with
      | Some n =>
          Some {| Certification.name := n;
                  Certification.issuer := Some (CertificationsForm.tierLabel r);
                  Certification.year := Some 2024%Z |}
      | None => None
      end
  | _ => None
  end.

(** The last identified record of a drop. *)
Fixpoint last_scanned (fs : list (File.t * Net ScanResult.t))
  : option Certification.t :=
  match fs with
  | [] => None
  | f :: rest =>
      match last_scanned rest with
      | Some c => Some c
      | None => scanned_cert f
      end
  end.

(** The key [updateData] is called with. *)
Definition update_key (u : App.Update) : jsstring :=
  match u with
  | App.skills _ => lit "skills"
  | App.certifications _ => lit "certifications"
  | App.projects _ => lit "projects"
  | App.internships _ => lit "internships"
  | App.resumeText _ => lit "resumeText"
  end.

(** What holds of the state cells after any sequence of events. *)
Definition world_invariant (w : World) : Prop :=
  AppState.step (app w) <= 5
  /\ (AppState.step (app w) = 5 ->
      exists url body, In (PostJson url body) (Env.requests (env w)))
  /\ NoDup (SkillsForm.skills w)
  /\ Forall cert_ok (CertificationsForm.certs w)
  /\ Forall project_ok (ProjectsForm.projects w)
  /\ Forall internship_ok (InternshipsForm.internships w)
  /\ CertState.year (certForm w) = 2024%Z
  /\ InternshipState.durationMonths (internshipForm w) <> 0%Z
  /\ Intake.resumeText (AppState.data (app w)) <> None
  /\ (AppState.loading (app w) = true ->
      exists url body, In (PostJson url body) (Env.requests (env w))).

(** The handlers of [calculateScore] among the waiting ones. *)
Definition is_score (t : Wizard.Task) : bool :=
  match t with Wizard.ScoreTask => true | _ => false end.

(** A waiting certificate handler captured a list of complete records. *)
Definition task_ok (t : Wizard.Task) : Prop :=
  match t with
  | Wizard.ScanTask _ certs _ _ => Forall cert_ok certs
  | _ => True
  end.

(** What holds of the page: of its state cells, of the handlers waiting for
    the network, and of [loading], which counts the scoring requests in
    flight. *)
Definition page_invariant (p : Wizard.Page) : Prop :=
  world_invariant (Wizard.world p)
  /\ Forall task_ok (Wizard.pending p)
  /\ Wizard.scoring_in_flight p
     = (if AppState.loading (app (Wizard.world p)) then 1 else 0).

(** A session: a skill, a certification and an internship are entered by
    hand and the score is requested; while the request is in flight the user
    goes back one step; then the report arrives. *)
Definition sample_session : list Wizard.Event :=
  [ Wizard.SkillAdd (lit "Python");
    Wizard.NextClick;
    Wizard.CertNameInput (lit " CKA ");
    Wizard.CertAdd;
    Wizard.NextClick;
    Wizard.NextClick;
    Wizard.InternCompanyInput (lit "Acme");
    Wizard.InternDurationInput None;
    Wizard.InternAdd;
    Wizard.NextClick;
    Wizard.CalculateClick;
    Wizard.PreviousClick;
    Wizard.Arrive 0 (Wizard.ScoreArrival (Responded (Some (JObj [])))) ].


(** A catalogue as [/api/skills] could return it, and a stand-in for
    [toLowerCase] that maps the ASCII capitals. *)
Definition sample_catalogue : SkillsCatalog.t :=
  {| SkillsCatalog.allSkills :=
       [ (lit "Languages",
          {| SkillsCatalog.icon := lit "L";
             SkillsCatalog.skills := [lit "Python"; lit "Go"; lit "Rust"] |});
         (lit "Cloud",
          {| SkillsCatalog.icon := lit "C";
             SkillsCatalog.skills := [lit "AWS"] |}) ];
     SkillsCatalog.search := lit "GO";
     SkillsCatalog.loading := false |}.

Definition ascii_lower (s : jsstring) : jsstring :=
  map (fun c => if ((65 <=? c) && (c <=? 90))%N then (c + 32)%N else c) s.

(* ================================================================== *)
(** * Facts about the JavaScript primitives *)
(* ================================================================== *)

Section StringFacts.

Lemma eqb_eq (s t : jsstring) : JS.eqb s t = true <-> s = t.
Proof.
  revert t; induction s as [|c s IH]; intros [|d t]; simpl;
    try (split; [discriminate | discriminate]); try tauto.
  rewrite andb_true_iff, N.eqb_eq, IH.
  split; [intros [-> ->]; reflexivity | intros H; inversion H; auto].
Qed.

Lemma includes_In (l : list jsstring) (x : jsstring) :
  includes l x = true <-> In x l.
Proof.
  unfold includes. rewrite existsb_exists. split.
  - intros [y [Hin Heq]]. apply eqb_eq in Heq. subst. exact Hin.
  - intros Hin. exists x. split; [exact Hin | apply eqb_eq; reflexivity].
Qed.

Lemma trimStart_blank (s : jsstring) : blank s = true -> trimStart s = [].
Proof.
  induction s as [|c s IH]; simpl; [reflexivity|].
  intros H. apply andb_true_iff in H. destruct H as [Hc Hs].
  rewrite Hc. auto.
Qed.

Lemma trimStart_nil_blank (s : jsstring) : trimStart s = [] -> blank s = true.
Proof.
  induction s as [|c s IH]; simpl; [reflexivity|].
  destruct (is_white_space c); simpl; [exact IH | discriminate].
Qed.

(** [trimStart] returns a suffix and only drops white space. *)
Lemma trimStart_split (s : jsstring) :
  exists ws, s = ws ++ trimStart s /\ blank ws = true.
Proof.
  induction s as [|c s [ws [Heq Hws]]]; simpl.
  - exists []. split; reflexivity.
  - destruct (is_white_space c) eqn:Hc.
    + exists (c :: ws). simpl. rewrite Hc, Hws.
      split; [f_equal; exact Heq | reflexivity].
    + exists []. split; reflexivity.
Qed.

Lemma blank_app (s t : jsstring) : blank (s ++ t) = blank s && blank t.
Proof. apply forallb_app. Qed.

Lemma blank_rev (s : jsstring) : blank (rev s) = blank s.
Proof.
  induction s as [|c s IH]; simpl; [reflexivity|].
  rewrite blank_app, IH. simpl. rewrite andb_true_r. apply andb_comm.
Qed.

(** [!s.trim()] holds exactly for blank strings. *)
Lemma trim_blank (s : jsstring) : trim s = [] <-> blank s = true.
Proof.
  unfold trim, trimEnd. split.
  - intros H.
    assert (Hr : trimStart (rev (trimStart s)) = []).
    { destruct (trimStart (rev (trimStart s))) as [|c r] eqn:E; [reflexivity|].
      simpl in H. apply app_eq_nil in H. destruct H as [_ H]. discriminate. }
    apply trimStart_nil_blank in Hr. rewrite blank_rev in Hr.
    destruct (trimStart_split s) as [ws [Heq Hws]].
    rewrite Heq, blank_app, Hws, Hr. reflexivity.
  - intros H. rewrite (trimStart_blank s H). reflexivity.
Qed.

Lemma truthy_trim (s : jsstring) :
  negb (truthy_string (trim s)) = true <-> blank s = true.
Proof.
  rewrite <- trim_blank. destruct (trim s); simpl; split; congruence.
Qed.

Lemma trimStart_clean (s : jsstring) : starts_clean (trimStart s).
Proof.
  induction s as [|c s IH]; simpl; [exact I|].
  destruct (is_white_space c) eqn:Hc; [exact IH | exact Hc].
Qed.

Lemma trimStart_id (s : jsstring) : starts_clean s -> trimStart s = s.
Proof. destruct s as [|c s]; simpl; [reflexivity | intros ->; reflexivity]. Qed.

Lemma starts_clean_app (s t : jsstring) :
  starts_clean (s ++ t) -> s <> [] -> starts_clean s.
Proof. destruct s; simpl; [congruence | auto]. Qed.

Lemma trim_ends_clean (s : jsstring) :
  starts_clean (trim s) /\ starts_clean (rev (trim s)).
Proof.
  unfold trim, trimEnd. split.
  - destruct (trimStart_split (rev (trimStart s))) as [ws [Heq Hws]].
    set (u := trimStart (rev (trimStart s))) in *.
    destruct (rev u) as [|c r] eqn:E; [exact I|].
    assert (Hs : trimStart s = rev u ++ rev ws).
    { rewrite <- rev_app_distr, <- Heq, rev_involutive. reflexivity. }
    pose proof (trimStart_clean s) as Hc. rewrite Hs, E in Hc. exact Hc.
  - rewrite rev_involutive. apply trimStart_clean.
Qed.

Lemma trim_idempotent (s : jsstring) : trim (trim s) = trim s.
Proof.
  destruct (trim_ends_clean s) as [H1 H2].
  unfold trim at 1. unfold trimEnd.
  rewrite (trimStart_id _ H1), (trimStart_id _ H2). apply rev_involutive.
Qed.

(** [split] and [join] are inverse, and no segment holds the separator:
    together these determine the segments. *)
Lemma split_nonempty (sep : code_unit) (s : jsstring) : split sep s <> [].
Proof.
  destruct s as [|c s]; simpl; [discriminate|].
  destruct (c =? sep)%N; [discriminate|].
  destruct (split sep s); discriminate.
Qed.

Lemma join_split (sep : code_unit) (s : jsstring) :
  join [sep] (split sep s) = s.
Proof.
  induction s as [|c s IH]; [reflexivity|].
  simpl split. destruct (c =? sep)%N eqn:Hc.
  - apply N.eqb_eq in Hc. subst c.
    pose proof (split_nonempty sep s) as Hne.
    destruct (split sep s) as [|seg segs] eqn:E; [congruence|].
    change (join [sep] ([] :: seg :: segs))
      with ([] ++ [sep] ++ join [sep] (seg :: segs)).
    rewrite IH. reflexivity.
  - pose proof (split_nonempty sep s) as Hne.
    destruct (split sep s) as [|seg segs] eqn:E; [congruence|].
    destruct segs as [|seg' segs].
    + simpl in *. f_equal. exact IH.
    + change (join [sep] ((c :: seg) :: seg' :: segs))
        with (c :: (seg ++ [sep] ++ join [sep] (seg' :: segs))).
      f_equal. exact IH.
Qed.

Lemma split_no_sep (sep : code_unit) (s : jsstring) :
  Forall (fun seg => ~ In sep seg) (split sep s).
Proof.
  induction s as [|c s IH]; simpl.
  - constructor; [intros [] | constructor].
  - destruct (c =? sep)%N eqn:Hc.
    + constructor; [intros [] | exact IH].
    + apply N.eqb_neq in Hc.
      destruct (split sep s) as [|seg segs].
      * constructor; [|constructor]. intros [H|[]]. congruence.
      * inversion IH as [|? ? Hseg Hsegs]; subst.
        constructor; [|exact Hsegs].
        intros [H|H]; [congruence | exact (Hseg H)].
Qed.

End StringFacts.

Section ListFacts.

Context {A : Type}.

Lemma filter_from_skip (idx i : nat) (l : list A) :
  idx < i -> filter_from (fun _ j => negb (j =? idx)) i l = l.
Proof.
  revert i; induction l as [|x l IH]; intros i Hi; simpl; [reflexivity|].
  destruct (i =? idx) eqn:E; [apply Nat.eqb_eq in E; lia|].
  simpl. f_equal. apply IH. lia.
Qed.

Lemma filter_from_remove (idx i : nat) (l : list A) :
  i <= idx ->
  filter_from (fun _ j => negb (j =? idx)) i l
  = firstn (idx - i) l ++ skipn (S (idx - i)) l.
Proof.
  revert i; induction l as [|x l IH]; intros i Hi; simpl.
  - rewrite firstn_nil. reflexivity.
  - destruct (i =? idx) eqn:E; simpl.
    + apply Nat.eqb_eq in E. subst i. rewrite Nat.sub_diag. simpl.
      apply filter_from_skip. lia.
    + apply Nat.eqb_neq in E.
      replace (idx - i) with (S (idx - S i)) by lia. simpl.
      f_equal. apply IH. lia.
Qed.

(** [l.filter((_, i) => i !== idx)] drops position [idx] and nothing else. *)
Lemma filter_index_remove (idx : nat) (l : list A) :
  filter_index (fun _ j => negb (j =? idx)) l
  = firstn idx l ++ skipn (S idx) l.
Proof.
  unfold filter_index. rewrite filter_from_remove by lia.
  rewrite Nat.sub_0_r. reflexivity.
Qed.

Lemma remove_at_length (idx : nat) (l : list A) :
  idx < List.length l ->
  List.length (firstn idx l ++ skipn (S idx) l) = List.length l - 1.
Proof.
  intros H. rewrite length_app, length_firstn, length_skipn. lia.
Qed.

Lemma remove_at_nth_before (idx j : nat) (l : list A) :
  j < idx -> idx < List.length l ->
  nth_error (firstn idx l ++ skipn (S idx) l) j = nth_error l j.
Proof.
  intros Hj Hi. rewrite nth_error_app1 by (rewrite length_firstn; lia).
  rewrite nth_error_firstn.
  destruct (j <? idx) eqn:E; [reflexivity | apply Nat.ltb_ge in E; lia].
Qed.

Lemma remove_at_nth_after (idx j : nat) (l : list A) :
  idx <= j -> idx < List.length l ->
  nth_error (firstn idx l ++ skipn (S idx) l) j = nth_error l (S j).
Proof.
  intros Hj Hi. rewrite nth_error_app2 by (rewrite length_firstn; lia).
  rewrite length_firstn, nth_error_skipn. f_equal. lia.
Qed.

End ListFacts.

Ltac run_eff :=
  unfold Eff.exec, Eff.outcome, Eff.bind, Eff.try_catch, Eff.fetch, Eff.json,
    Eff.modify, Eff.ret, Eff.throw; simpl.

Section EffFacts.

Context {A : Type}.

(** A loop over one element runs its body once. *)
Lemma for_of_single (x : A) (body : A -> Eff.t unit) (w : World) :
  Eff.exec (Eff.for_of [x] body) w = Eff.exec (body x) w.
Proof.
  unfold Eff.exec. simpl. unfold Eff.bind, Eff.ret.
  destruct (body x w) as [[u|e] w']; reflexivity.
Qed.

Lemma for_of_single_outcome (x : A) (body : A -> Eff.t unit) (w : World) :
  Eff.outcome (Eff.for_of [x] body) w = Eff.outcome (body x) w.
Proof.
  unfold Eff.outcome. simpl. unfold Eff.bind, Eff.ret.
  destruct (body x w) as [[[]|e] w']; reflexivity.
Qed.


(** After a non-empty loop, whatever the last run of the body establishes
    from any state holds. *)
Lemma for_of_last (l : list A) (x : A) (body : A -> Eff.t unit)
  (P : World -> Prop) :
  (forall y w, Eff.outcome (body y) w = Eff.Returned tt) ->
  (forall w, P (Eff.exec (body x) w)) ->
  forall w, P (Eff.exec (Eff.for_of (l ++ [x]) body) w).
Proof.
  intros Hret Hlast. induction l as [|y l IH]; intros w.
  - change ([] ++ [x]) with [x]. rewrite (for_of_single x body w). apply Hlast.
  - unfold Eff.exec, Eff.outcome in *. simpl. unfold Eff.bind.
    specialize (Hret y w). destruct (body y w) as [o w']. simpl in Hret.
    subst o. apply IH.
Qed.

End EffFacts.

(* ================================================================== *)
(** * The wizard cursor *)
(* ================================================================== *)

(** C10. Clicking stepper button [i] does nothing when [i] is ahead of the
    cursor, and sets the cursor to exactly [i] when [i] is at or behind it
    (nothing else changes). *)
Theorem stepper_jump (w : World) (i : nat) :
  (AppState.step (app w) < i -> App.stepper_onClick i w = w)
  /\ (i <= AppState.step (app w) ->
      AppState.step (app (App.stepper_onClick i w)) = i
      /\ App.stepper_onClick i w = on_app (AppState.setStep i) w).
Proof.
  unfold App.stepper_onClick. split; intros H.
  - destruct (i <=? AppState.step (app w)) eqn:E1;
      [apply Nat.leb_le in E1; lia|].
    destruct (i <? AppState.step (app w)) eqn:E2;
      [apply Nat.ltb_lt in E2; lia|].
    reflexivity.
  - apply Nat.leb_le in H. rewrite H. simpl. split; reflexivity.
Qed.

Lemma stepper_jump_witness :
  App.stepper_onClick 5 Sample.world_resume_step = Sample.world_resume_step
  /\ AppState.step (app (App.stepper_onClick 2 Sample.world_resume_step)) = 2.
Proof.
  split.
  - apply (proj1 (stepper_jump Sample.world_resume_step 5)). simpl. lia.
  - apply (proj2 (stepper_jump Sample.world_resume_step 2)). simpl. lia.
Defined.

(* ================================================================== *)
(** * Skills *)
(* ================================================================== *)

Lemma skills_onChange (v : list jsstring) (w : World) :
  SkillsForm.skills (SkillsForm.onChange v w) = v.
Proof. reflexivity. Qed.

(** C7. Adding a skill that is already selected leaves the state as it is,
    so adding twice is the same as adding once; "Clear All" leaves no skill
    whatever was selected. *)
Theorem skills_add_idempotent_clear (w : World) (skill : jsstring) :
  (In skill (SkillsForm.skills w) -> SkillsForm.addSkill skill w = w)
  /\ SkillsForm.addSkill skill (SkillsForm.addSkill skill w)
     = SkillsForm.addSkill skill w
  /\ SkillsForm.skills (SkillsForm.clearAll_onClick w) = [].
Proof.
  assert (Hin : forall w', In skill (SkillsForm.skills w') ->
                           SkillsForm.addSkill skill w' = w').
  { intros w' H. unfold SkillsForm.addSkill.
    apply includes_In in H. rewrite H. reflexivity. }
  split; [apply Hin | split].
  - apply Hin. unfold SkillsForm.addSkill.
    destruct (includes (SkillsForm.skills w) skill) eqn:E; simpl.
    + apply includes_In. exact E.
    + rewrite skills_onChange. apply in_or_app. right. left. reflexivity.
  - reflexivity.
Qed.

Lemma skills_add_idempotent_clear_witness :
  SkillsForm.addSkill (lit "Python") Sample.world_resume_step
  = Sample.world_resume_step.
Proof.
  apply (proj1 (skills_add_idempotent_clear Sample.world_resume_step
                                             (lit "Python"))).
  simpl. left. reflexivity.
Defined.

(* ================================================================== *)
(** * Removing a record by index *)
(* ================================================================== *)

Lemma remove_at_spec {A : Type} (idx : nat) (l : list A) :
  idx < List.length l ->
  removed_at idx l (filter_index (fun _ j => negb (j =? idx)) l).
Proof.
  intros H. rewrite filter_index_remove. repeat split.
  - apply remove_at_length; exact H.
  - intros j Hj. apply remove_at_nth_before; assumption.
  - intros j Hj. apply remove_at_nth_after; assumption.
Qed.

(** C6. In each of the three list forms, removing index [idx] of a list of
    length [n] with [idx < n] yields a list of length [n - 1] that keeps every
    other element, in the original order: it is the elements before [idx]
    followed by the elements after it. *)
Theorem remove_by_index (w : World) (idx : nat) :
  (idx < List.length (CertificationsForm.certs w) ->
   let l := CertificationsForm.certs w in
   let l' := CertificationsForm.certs (CertificationsForm.removeCert idx w) in
   removed_at idx l l' /\ l' = firstn idx l ++ skipn (S idx) l)
  /\ (idx < List.length (ProjectsForm.projects w) ->
      let l := ProjectsForm.projects w in
      let l' := ProjectsForm.projects (ProjectsForm.removeProject idx w) in
      removed_at idx l l' /\ l' = firstn idx l ++ skipn (S idx) l)
  /\ (idx < List.length (InternshipsForm.internships w) ->
      let l := InternshipsForm.internships w in
      let l' :=
        InternshipsForm.internships (InternshipsForm.removeInternship idx w) in
      removed_at idx l l' /\ l' = firstn idx l ++ skipn (S idx) l).
Proof.
  split; [|split]; intros H l l'; subst l l'; simpl;
    (split; [apply remove_at_spec; exact H | apply filter_index_remove]).
Qed.

Lemma remove_by_index_witness :
  CertificationsForm.certs
    (CertificationsForm.removeCert 0 Sample.world_resume_step) = []
  /\ ProjectsForm.projects
       (ProjectsForm.removeProject 0 Sample.world_resume_step) = []
  /\ InternshipsForm.internships
       (InternshipsForm.removeInternship 0 Sample.world_resume_step) = [].
Proof.
  destruct (remove_by_index Sample.world_resume_step 0) as [Hc [Hp Hi]].
  split; [|split].
  - apply Hc. simpl. lia.
  - apply Hp. simpl. lia.
  - apply Hi. simpl. lia.
Defined.

(* ================================================================== *)
(** * Adding a record by hand *)
(* ================================================================== *)

(** C5. In the certification, project and internship forms, "add" with a
    required field (name, title, company) that is empty or white space only
    returns the state it was given: the list and the form are untouched and
    nothing is thrown. *)
Theorem add_blank_required_noop (w : World) :
  (blank (CertState.name (certForm w)) = true ->
   CertificationsForm.addCert w = w)
  /\ (blank (ProjectState.title (projectForm w)) = true ->
      ProjectsForm.addProject w = w)
  /\ (blank (InternshipState.company (internshipForm w)) = true ->
      InternshipsForm.addInternship w = w).
Proof.
  repeat split; intros H; apply truthy_trim in H.
  - unfold CertificationsForm.addCert. rewrite H. reflexivity.
  - unfold ProjectsForm.addProject. rewrite H. reflexivity.
  - unfold InternshipsForm.addInternship. rewrite H. reflexivity.
Qed.

Lemma add_blank_required_noop_witness :
  CertificationsForm.addCert initial_world = initial_world
  /\ ProjectsForm.addProject initial_world = initial_world
  /\ InternshipsForm.addInternship initial_world = initial_world.
Proof.
  destruct (add_blank_required_noop initial_world) as [Hc [Hp Hi]].
  split; [|split].
  - apply Hc. reflexivity.
  - apply Hp. reflexivity.
  - apply Hi. reflexivity.
Defined.

Lemma truthy_string_nonempty (s : jsstring) :
  truthy_string s = negb (JS.eqb s []).
Proof. destruct s; reflexivity. Qed.

Lemma filter_truthy_nonempty (l : list jsstring) :
  filter truthy_string l = filter (fun s => negb (JS.eqb s [])) l.
Proof. apply filter_ext. exact truthy_string_nonempty. Qed.

(** C8. When the title is not blank, "add project" appends one record whose
    tech stack is the comma-separated pieces of the input, each trimmed, the
    empty ones dropped, in their original order; title, description and
    GitHub URL are the trimmed inputs. *)
Theorem addProject_normalizes (w : World) :
  blank (ProjectState.title (projectForm w)) = false ->
  exists segs,
    comma_segments (ProjectState.techStack (projectForm w)) segs
    /\ ProjectsForm.projects (ProjectsForm.addProject w)
       = ProjectsForm.projects w
         ++ [ {| Project.title := trim (ProjectState.title (projectForm w));
                 Project.description :=
                   Some (trim (ProjectState.description (projectForm w)));
                 Project.techStack :=
                   Some (filter (fun s => negb (JS.eqb s []))
                                (map trim segs));
                 Project.githubUrl :=
                   Some (trim (ProjectState.githubUrl (projectForm w))) |} ].
Proof.
  intros H.
  exists (split comma (ProjectState.techStack (projectForm w))).
  split; [split; [apply join_split | apply split_no_sep]|].
  unfold ProjectsForm.addProject.
  destruct (negb (truthy_string (trim (ProjectState.title (projectForm w)))))
    eqn:E.
  - apply truthy_trim in E. congruence.
  - simpl. unfold ProjectsForm.record_of, ProjectsForm.tech_stack_of.
    rewrite filter_truthy_nonempty. reflexivity.
Qed.

Lemma addProject_normalizes_witness :
  exists segs,
    comma_segments (lit "React, ,Node.js ,, AWS") segs
    /\ ProjectsForm.projects (ProjectsForm.addProject Sample.world_project_typed)
       = [ {| Project.title := lit "Shop";
              Project.description := Some (lit "A store.");
              Project.techStack :=
                Some (filter (fun s => negb (JS.eqb s [])) (map trim segs));
              Project.githubUrl := Some (lit "https://github.com/u/shop") |} ].
Proof.
  apply (addProject_normalizes Sample.world_project_typed). reflexivity.
Defined.

(** The pieces of the sample input, after normalisation. *)
Example tech_stack_sample :
  ProjectsForm.tech_stack_of (lit "React, ,Node.js ,, AWS")
  = [lit "React"; lit "Node.js"; lit "AWS"].
Proof. reflexivity. Qed.

(** What is kept is trimmed, not empty and free of commas. *)
Lemma tech_stack_entries (text s : jsstring) :
  In s (ProjectsForm.tech_stack_of text) ->
  s <> [] /\ trim s = s /\ ~ In comma s.
Proof.
  unfold ProjectsForm.tech_stack_of. intros H.
  apply filter_In in H. destruct H as [H Ht].
  apply in_map_iff in H. destruct H as [seg [Hs Hseg]]. subst s.
  split; [destruct (trim seg); [discriminate | discriminate]|].
  split; [apply trim_idempotent|].
  pose proof (split_no_sep comma text) as Hf.
  rewrite Forall_forall in Hf. specialize (Hf seg Hseg).
  intros Hin. apply Hf. clear - Hin.
  unfold trim, trimEnd in Hin. apply in_rev in Hin.
  destruct (trimStart_split (rev (trimStart seg))) as [ws [Heq _]].
  assert (In comma (rev (trimStart seg))).
  { rewrite Heq. apply in_or_app. right. exact Hin. }
  apply in_rev in H.
  destruct (trimStart_split seg) as [ws' [Heq' _]].
  rewrite Heq'. apply in_or_app. right. exact H.
Qed.

(* ================================================================== *)
(** * Certificate scan *)
(* ================================================================== *)

Lemma scan_file_returns (certs : list Certification.t)
  (dropped : File.t * Net ScanResult.t) (w : World) :
  Eff.outcome (CertificationsForm.scan_file certs dropped) w = Eff.Returned tt.
Proof.
  destruct dropped as [file [|[r|]]]; unfold CertificationsForm.scan_file;
    run_eff; try reflexivity.
  destruct (CertificationsForm.identified_with_name r); reflexivity.
Qed.


Lemma identified_with_name_some (r : ScanResult.t) (n : jsstring) :
  ScanResult.identified r = Some true ->
  ScanResult.cert_name r = Some n ->
  n <> [] ->
  CertificationsForm.identified_with_name r = Some n.
Proof.
  intros Hi Hn Hne. unfold CertificationsForm.identified_with_name.
  rewrite Hi, Hn. destruct n; [congruence | reflexivity].
Qed.

(** One scanned file that is identified: the list the closure captured, plus
    one record. *)
Lemma scan_file_identified (certs : list Certification.t) (file : File.t)
  (r : ScanResult.t) (n : jsstring) (w : World) :
  CertificationsForm.identified_with_name r = Some n ->
  CertificationsForm.certs
    (Eff.exec (CertificationsForm.scan_file certs (file, Responded (Some r))) w)
  = certs ++ [ {| Certification.name := n;
                  Certification.issuer := Some (CertificationsForm.tierLabel r);
                  Certification.year := Some 2024%Z |} ].
Proof.
  intros H. unfold Eff.exec, CertificationsForm.scan_file, Eff.bind,
    Eff.try_catch, Eff.fetch, Eff.json, Eff.modify, Eff.ret. simpl.
  rewrite H. reflexivity.
Qed.

(** [onDrop] runs its loop over the list it captured on entry. *)
Lemma onDrop_captures (fs : list (File.t * Net ScanResult.t)) (w : World) :
  Eff.exec (CertificationsForm.onDrop fs) w
  = Eff.exec (Eff.for_of fs
                (CertificationsForm.scan_file (CertificationsForm.certs w))) w.
Proof. reflexivity. Qed.


Lemma tierLabel_cases (r : ScanResult.t) :
  (ScanResult.match_ r = None -> CertificationsForm.tierLabel r = [])
  /\ (forall m, ScanResult.match_ r = Some m ->
                ScanResult.tier_label m = None ->
                CertificationsForm.tierLabel r = [])
  /\ (forall m label, ScanResult.match_ r = Some m ->
                      ScanResult.tier_label m = Some label ->
                      CertificationsForm.tierLabel r = label).
Proof.
  unfold CertificationsForm.tierLabel. repeat split.
  - intros ->. reflexivity.
  - intros m -> ->. reflexivity.
  - intros m label -> ->. destruct label; reflexivity.
Qed.

(** A drop of one certificate file whose scan answers [identified = true]
    with a non-empty [cert_name] appends exactly one record to the
    certifications: its name is [cert_name] as received (not trimmed, not
    checked for blankness), its year 2024, its issuer the [tier_label] of the
    response's [match], or the empty string when there is no [match]. *)
Lemma scan_identified_appends (w : World) (file : File.t)
  (r : ScanResult.t) (n : jsstring) :
  ScanResult.identified r = Some true ->
  ScanResult.cert_name r = Some n ->
  n <> [] ->
  exists issuer,
    CertificationsForm.certs
      (Eff.exec (CertificationsForm.onDrop [(file, Responded (Some r))]) w)
    = CertificationsForm.certs w
      ++ [ {| Certification.name := n;
              Certification.issuer := Some issuer;
              Certification.year := Some 2024%Z |} ]
    /\ (ScanResult.match_ r = None -> issuer = [])
    /\ (forall m label, ScanResult.match_ r = Some m ->
                        ScanResult.tier_label m = Some label ->
                        issuer = label).
Proof.
  intros Hi Hn Hne.
  pose proof (identified_with_name_some r n Hi Hn Hne) as H.
  exists (CertificationsForm.tierLabel r).
  destruct (tierLabel_cases r) as [H1 [_ H3]].
  split; [|split; assumption].
  rewrite onDrop_captures, for_of_single.
  apply scan_file_identified. exact H.
Qed.

Lemma scan_identified_appends_witness :
  exists issuer,
    CertificationsForm.certs
      (Eff.exec (CertificationsForm.onDrop
                   [(Sample.file_cv, Responded (Some Sample.scan_aws))])
                initial_world)
    = [ {| Certification.name := lit "AWS Certified";
           Certification.issuer := Some issuer;
           Certification.year := Some 2024%Z |} ]
    /\ (ScanResult.match_ Sample.scan_aws = None -> issuer = [])
    /\ (forall m label, ScanResult.match_ Sample.scan_aws = Some m ->
                        ScanResult.tier_label m = Some label ->
                        issuer = label).
Proof.
  apply (scan_identified_appends initial_world Sample.file_cv Sample.scan_aws
           (lit "AWS Certified")).
  - reflexivity.
  - reflexivity.
  - discriminate.
Defined.

(** The scenario of the specification, computed. *)
Example scan_aws_scenario :
  CertificationsForm.certs
    (Eff.exec (CertificationsForm.onDrop
                 [(Sample.file_cv, Responded (Some Sample.scan_aws))])
              initial_world)
  = [ {| Certification.name := lit "AWS Certified";
         Certification.issuer := Some (lit "Gold Tier");
         Certification.year := Some 2024%Z |} ].
Proof. reflexivity. Qed.

(** The scan path applies no trim gate: a name of one space is appended. *)
Example scan_blank_name_appended :
  let r := {| ScanResult.identified := Some true;
              ScanResult.cert_name := Some (lit " ");
              ScanResult.match_ := None;
              ScanResult.extracted_text_preview := None;
              ScanResult.error := None |} in
  blank (lit " ") = true
  /\ CertificationsForm.certs
       (Eff.exec (CertificationsForm.onDrop
                    [(Sample.file_cv, Responded (Some r))]) initial_world)
     = [ {| Certification.name := lit " ";
            Certification.issuer := Some [];
            Certification.year := Some 2024%Z |} ].
Proof. split; reflexivity. Qed.

(** C9. The handler appends to the list its closure captured when the drop
    started, not to the current list: in a drop of two files that are both
    identified, the first file's record is appended, and the second file's
    record then replaces it instead of following it.  The certifications end
    up with one record where two were identified. *)
Theorem scan_second_file_replaces_first :
  let first := (Sample.file_cert, Responded (Some Sample.scan_aws)) in
  let second := (Sample.file_cert2, Responded (Some Sample.scan_cka)) in
  let aws := {| Certification.name := lit "AWS Certified";
                Certification.issuer := Some (lit "Gold Tier");
                Certification.year := Some 2024%Z |} in
  let cka := {| Certification.name := lit "CKA";
                Certification.issuer := Some [];
                Certification.year := Some 2024%Z |} in
  CertificationsForm.certs
    (Eff.exec (CertificationsForm.onDrop [first]) initial_world) = [aws]
  /\ CertificationsForm.certs
       (Eff.exec (CertificationsForm.onDrop [first; second]) initial_world)
     = [cka]
  /\ CertificationsForm.certs
       (Eff.exec (CertificationsForm.onDrop [first; second]) initial_world)
     <> [aws; cka].
Proof. repeat split. discriminate. Qed.

(** In general: the second identified file of a drop discards what the first
    one appended. *)
Lemma scan_two_files (w : World) (f1 f2 : File.t) (r1 r2 : ScanResult.t)
  (n1 n2 : jsstring) :
  CertificationsForm.identified_with_name r1 = Some n1 ->
  CertificationsForm.identified_with_name r2 = Some n2 ->
  CertificationsForm.certs
    (Eff.exec (CertificationsForm.onDrop
                 [(f1, Responded (Some r1)); (f2, Responded (Some r2))]) w)
  = CertificationsForm.certs w
    ++ [ {| Certification.name := n2;
            Certification.issuer := Some (CertificationsForm.tierLabel r2);
            Certification.year := Some 2024%Z |} ].
Proof.
  intros H1 H2. rewrite onDrop_captures.
  change [(f1, Responded (Some r1)); (f2, Responded (Some r2))]
    with ([(f1, Responded (Some r1))] ++ [(f2, Responded (Some r2))]).
  apply (for_of_last [(f1, Responded (Some r1))] (f2, Responded (Some r2)) _
           (fun w' => CertificationsForm.certs w' = _)).
  - intros y w'. apply scan_file_returns.
  - intros w'. apply scan_file_identified. exact H2.
Qed.

(* ================================================================== *)
(** * Scoring submission *)
(* ================================================================== *)

(** C3. Submitting from step 4: when the request fails (rejected, or a body
    that is not JSON) the cursor is still 4, the intake data is what it was
    and no report is stored ([results] keeps its value, [null] if it was
    [null]); when a report arrives the cursor is 5 and [results] is that
    report.  Either way nothing is thrown and [loading] ends false. *)
Theorem submit_outcome (w : World) (net : Net Json) :
  AppState.step (app w) = 4 ->
  let w' := Eff.exec (App.calculateScore net) w in
  Eff.outcome (App.calculateScore net) w = Eff.Returned tt
  /\ AppState.loading (app w') = false
  /\ AppState.data (app w') = AppState.data (app w)
  /\ (failed net = true ->
      AppState.step (app w') = 4
      /\ AppState.results (app w') = AppState.results (app w)
      /\ (AppState.results (app w) = JNull ->
          AppState.results (app w') = JNull))
  /\ (forall report, net = Responded (Some report) ->
      AppState.step (app w') = 5 /\ AppState.results (app w') = report).
Proof.
  intros Hstep. unfold App.calculateScore.
  destruct net as [|[report|]]; run_eff;
    (split; [reflexivity|]); (split; [reflexivity|]); (split; [reflexivity|]);
    split.
  - intros _. auto.
  - intros r E. discriminate E.
  - intros E. discriminate E.
  - intros r E. inversion E. split; reflexivity.
  - intros _. auto.
  - intros r E. discriminate E.
Qed.

Lemma submit_outcome_witness :
  let w' := Eff.exec (App.calculateScore Rejected) Sample.world_resume_step in
  Eff.outcome (App.calculateScore Rejected) Sample.world_resume_step
  = Eff.Returned tt
  /\ AppState.loading (app w') = false
  /\ AppState.data (app w') = Sample.data_bare
  /\ (failed (@Rejected Json) = true ->
      AppState.step (app w') = 4
      /\ AppState.results (app w') = JNull
      /\ (JNull = JNull -> AppState.results (app w') = JNull))
  /\ (forall report, Rejected = Responded (Some report) ->
      AppState.step (app w') = 5 /\ AppState.results (app w') = report).
Proof.
  apply (submit_outcome Sample.world_resume_step Rejected). reflexivity.
Defined.

(** The user is told about a failed submission; the report of an earlier
    success survives it. *)
Lemma submit_failure_alerts (w : World) (net : Net Json) :
  failed net = true ->
  exists err msg,
    Env.alerts (env (Eff.exec (App.calculateScore net) w))
    = Env.alerts (env w) ++ [msg]
    /\ Env.console (env (Eff.exec (App.calculateScore net) w))
       = Env.console (env w) ++ [(lit "Error calculating score:", err)].
Proof.
  intros H. destruct net as [|[report|]]; try discriminate.
  - exists FetchFailed. eexists. split; reflexivity.
  - exists JsonParseFailed. eexists. split; reflexivity.
Qed.

(** The end-to-end scenario of the specification. *)
Example submit_scenario :
  let report :=
    JObj [(lit "final",
           JObj [(lit "final_score", JNum 42);
                 (lit "strongest_areas", JArr []);
                 (lit "weakest_areas", JArr [])])] in
  let w :=
    on_app (AppState.setStep 4)
      (App.updateData (App.skills [lit "Python"]) initial_world) in
  let w' := Eff.exec (App.calculateScore (Responded (Some report))) w in
  AppState.step (app w') = 5 /\ AppState.results (app w') = report.
Proof. split; reflexivity. Qed.

(* ================================================================== *)
(** * Upload failures *)
(* ================================================================== *)







(** A failure that is not the last attempt of its drop is not shown once
    the drop is over: the next attempt reset it. *)
Example earlier_failure_is_reset :
  CertificationsForm.inline_error
    (certForm
       (Eff.exec (CertificationsForm.onDrop
                    [(Sample.file_cert, Rejected);
                     (Sample.file_cert2, Responded (Some Sample.scan_cka))])
                 initial_world))
  = None.
Proof. reflexivity. Qed.


(** After a failed first upload the drop zone even reads as a success: it
    shows the "uploaded" line whenever [fileName] is set, and [fileName] is
    set before the request is made. *)
Example resume_failure_sets_fileName :
  ResumeState.fileName
    (resumeUpload
       (Eff.exec (ResumeUpload.onDrop [Sample.file_cv] Rejected) initial_world))
  = lit "cv.pdf".
Proof. reflexivity. Qed.

(* ================================================================== *)
(** * Resume scan *)
(* ================================================================== *)

Lemma marker_no_words (r : ResumeScan.t) (file : File.t) :
  ResumeScan.total_words r = None \/ ResumeScan.total_words r = Some 0%Z ->
  ResumeUpload.marker r file = [].
Proof.
  unfold ResumeUpload.marker, ResumeUpload.has_words.
  intros [-> | ->]; reflexivity.
Qed.

(** C4. When the resume scan succeeds with [total_words] zero or absent, the
    drop handler returns normally, stores the scan as preview and leaves one
    file read pending; when that read completes, its [onload] closure sets
    the resume text to the empty string, whatever text was there before. *)
Theorem resume_scan_no_words_erases (w : World) (file : File.t)
  (rest : list File.t) (r : ResumeScan.t) :
  ResumeScan.total_words r = None \/ ResumeScan.total_words r = Some 0%Z ->
  let m := ResumeUpload.onDrop (file :: rest) (Responded (Some r)) in
  Eff.outcome m w = Eff.Returned tt
  /\ ResumeState.preview (resumeUpload (Eff.exec m w)) = Some r
  /\ Intake.resumeText (AppState.data (app (Eff.exec m w)))
     = Intake.resumeText (AppState.data (app w))
  /\ Env.readers (env (Eff.exec m w))
     = Env.readers (env w) ++ [mkReader r file]
  /\ (forall w', Intake.resumeText
                   (AppState.data
                      (app (ResumeUpload.reader_onload (mkReader r file) w')))
                 = Some [])
  /\ (Env.readers (env w) = [] ->
      Intake.resumeText
        (AppState.data
           (app (ResumeUpload.deliver ResumeUpload.load (Eff.exec m w))))
      = Some []).
Proof.
  intros H m. subst m. unfold ResumeUpload.onDrop. run_eff.
  repeat split.
  - intros w'. unfold ResumeUpload.reader_onload. simpl.
    rewrite (marker_no_words r file H). reflexivity.
  - intros Hr. unfold ResumeUpload.deliver. simpl. rewrite Hr. simpl.
    rewrite (marker_no_words r file H). reflexivity.
Qed.

Lemma resume_scan_no_words_erases_witness :
  Intake.resumeText (AppState.data (app Sample.world_pasted))
  = Some (lit "Ten years of Rocq.")
  /\ Intake.resumeText
       (AppState.data
          (app (ResumeUpload.deliver ResumeUpload.load
                  (Eff.exec (ResumeUpload.onDrop
                               [Sample.file_cv]
                               (Responded (Some Sample.scan_empty_resume)))
                            Sample.world_pasted))))
     = Some [].
Proof.
  split; [reflexivity|].
  apply (resume_scan_no_words_erases Sample.world_pasted Sample.file_cv []
           Sample.scan_empty_resume).
  - right. reflexivity.
  - reflexivity.
Defined.

(** With words counted, the text becomes the upload marker followed by the
    suggestions, one per line. *)
Example resume_marker_sample :
  ResumeUpload.marker
    {| ResumeScan.score := Some 70%Z; ResumeScan.section_scores := None;
       ResumeScan.total_words := Some 120%Z;
       ResumeScan.suggestions := Some [lit "Add skills"; lit "Add links"] |}
    Sample.file_cv
  = lit "[Resume uploaded: cv.pdf]" ++ [newline] ++ lit "Add skills"
    ++ [newline] ++ lit "Add links".
Proof. reflexivity. Qed.

(* ================================================================== *)
(** * The scoring payload *)
(* ================================================================== *)

(** [calculateScore] always posts the payload of the current data. *)
Lemma calculateScore_request (w : World) (net : Net Json) :
  Env.requests (env (Eff.exec (App.calculateScore net) w))
  = Env.requests (env w)
    ++ [PostJson (App.apiUrl (env w) (lit "/api/score/calculate"))
                 (App.payload (AppState.data (app w)))].
Proof. destruct net as [|[report|]]; reflexivity. Qed.

Lemma or_string_present (s d : jsstring) : d = [] -> or_string (Some s) d = s.
Proof. intros ->. destruct s; reflexivity. Qed.

Lemma or_number_present (n d : Z) : n <> 0%Z -> or_number (Some n) d = n.
Proof.
  intros H. unfold or_number, truthy_number.
  destruct (n =? 0)%Z eqn:E; [apply Z.eqb_eq in E; contradiction | reflexivity].
Qed.

(** C1, as the code has it. With one certification, one project and one
    internship in the intake data, the body posted by [calculateScore] holds
    the skills as they are and exactly one entry per category, built from that
    record: required fields are copied; an absent optional field becomes
    issuer [''], year 2024, description [''], tech_stack [[]], github_url
    [''], role [''], achievements [''], has_certificate false and
    duration_months 1; a present one is passed on (a year or duration of 0
    counts as absent); resume_text is the resume text, [''] when absent. *)
Theorem payload_one_per_category (w : World) (net : Net Json)
  (c : Certification.t) (p : Project.t) (i : Internship.t) :
  Intake.certifications (AppState.data (app w)) = [c] ->
  Intake.projects (AppState.data (app w)) = [p] ->
  Intake.internships (AppState.data (app w)) = [i] ->
  exists body ce pe ie,
    Env.requests (env (Eff.exec (App.calculateScore net) w))
    = Env.requests (env w)
      ++ [PostJson (App.apiUrl (env w) (lit "/api/score/calculate")) body]
    /\ Payload.skills body = Intake.skills (AppState.data (app w))
    /\ Payload.certifications body = [ce]
    /\ Payload.projects body = [pe]
    /\ Payload.internships body = [ie]
    /\ Payload.resume_text body
       = match Intake.resumeText (AppState.data (app w)) with
         | Some text => text
         | None => []
         end
    (* certification *)
    /\ Payload.Cert.name ce = Certification.name c
    /\ (Certification.issuer c = None -> Payload.Cert.issuer ce = [])
    /\ (forall s, Certification.issuer c = Some s -> Payload.Cert.issuer ce = s)
    /\ (Certification.year c = None -> Payload.Cert.year ce = 2024%Z)
    /\ (forall y, Certification.year c = Some y -> y <> 0%Z ->
                  Payload.Cert.year ce = y)
    (* project *)
    /\ Payload.Project.title pe = Project.title p
    /\ (Project.description p = None -> Payload.Project.description pe = [])
    /\ (forall s, Project.description p = Some s ->
                  Payload.Project.description pe = s)
    /\ (Project.techStack p = None -> Payload.Project.tech_stack pe = [])
    /\ (forall l, Project.techStack p = Some l ->
                  Payload.Project.tech_stack pe = l)
    /\ (Project.githubUrl p = None -> Payload.Project.github_url pe = [])
    /\ (forall s, Project.githubUrl p = Some s ->
                  Payload.Project.github_url pe = s)
    (* internship *)
    /\ Payload.Internship.company ie = Internship.company i
    /\ (Internship.role i = None -> Payload.Internship.role ie = [])
    /\ (forall s, Internship.role i = Some s -> Payload.Internship.role ie = s)
    /\ (Internship.durationMonths i = None ->
        Payload.Internship.duration_months ie = 1%Z)
    /\ (forall n, Internship.durationMonths i = Some n -> n <> 0%Z ->
                  Payload.Internship.duration_months ie = n)
    /\ (Internship.achievements i = None ->
        Payload.Internship.achievements ie = [])
    /\ (forall s, Internship.achievements i = Some s ->
                  Payload.Internship.achievements ie = s)
    /\ (Internship.hasCertificate i = None ->
        Payload.Internship.has_certificate ie = false)
    /\ (forall b, Internship.hasCertificate i = Some b ->
                  Payload.Internship.has_certificate ie = b).
Proof.
  intros Hc Hp Hi.
  exists (App.payload (AppState.data (app w))),
    (App.cert_entry c), (App.project_entry p), (App.internship_entry i).
  split; [apply calculateScore_request|].
  unfold App.payload. rewrite Hc, Hp, Hi. simpl.
  repeat split;
    try (intros x Hx; rewrite Hx);
    try (intros Hx; rewrite Hx);
    try reflexivity.
  - destruct (Intake.resumeText (AppState.data (app w))) as [[|ch text]|];
      reflexivity.
  - apply or_string_present; reflexivity.
  - intros Hy. apply or_number_present; exact Hy.
  - apply or_string_present; reflexivity.
  - apply or_string_present; reflexivity.
  - apply or_string_present; reflexivity.
  - intros Hn. apply or_number_present; exact Hn.
  - apply or_string_present; reflexivity.
  - destruct x; reflexivity.
Qed.

Lemma payload_one_per_category_witness :
  exists body ce pe ie,
    Env.requests
      (env (Eff.exec (App.calculateScore Rejected) Sample.world_resume_step))
    = [PostJson (lit "/api/score/calculate") body]
    /\ Payload.skills body = [lit "Python"]
    /\ Payload.certifications body = [ce]
    /\ Payload.projects body = [pe]
    /\ Payload.internships body = [ie]
    /\ Payload.resume_text body = []
    /\ Payload.Cert.issuer ce = []
    /\ Payload.Cert.year ce = 2024%Z
    /\ Payload.Project.tech_stack pe = []
    /\ Payload.Internship.duration_months ie = 1%Z
    /\ Payload.Internship.has_certificate ie = false.
Proof.
  destruct (payload_one_per_category Sample.world_resume_step Rejected
              Sample.cert_bare Sample.project_bare Sample.internship_bare)
    as [body [ce [pe [ie H]]]].
  - reflexivity.
  - reflexivity.
  - reflexivity.
  - exists body, ce, pe, ie. decompose [and] H. clear H.
    repeat split; try assumption.
    + match goal with Hx : _ -> Payload.Cert.issuer ce = [] |- _ =>
        apply Hx; reflexivity end.
    + match goal with Hx : _ -> Payload.Cert.year ce = 2024%Z |- _ =>
        apply Hx; reflexivity end.
    + match goal with Hx : _ -> Payload.Project.tech_stack pe = [] |- _ =>
        apply Hx; reflexivity end.
    + match goal with
        Hx : _ -> Payload.Internship.duration_months ie = 1%Z |- _ =>
        apply Hx; reflexivity end.
    + match goal with
        Hx : _ -> Payload.Internship.has_certificate ie = false |- _ =>
        apply Hx; reflexivity end.
Defined.

(** C1 as stated fails for the duration: an internship without
    [durationMonths] is posted with [duration_months] 1, not 3. *)
Lemma payload_duration_default_is_1 :
  Intake.internships (AppState.data (app Sample.world_resume_step))
  = [Sample.internship_bare]
  /\ Internship.durationMonths Sample.internship_bare = None
  /\ (exists body,
         Env.requests
           (env (Eff.exec (App.calculateScore Rejected)
                          Sample.world_resume_step))
         = [PostJson (lit "/api/score/calculate") body]
         /\ map Payload.Internship.duration_months (Payload.internships body)
            = [1%Z]
         /\ map Payload.Internship.duration_months (Payload.internships body)
            <> [3%Z]).
Proof.
  split; [reflexivity|]. split; [reflexivity|].
  eexists. split; [reflexivity|]. split; [reflexivity | discriminate].
Qed.

(** The default 3 is the initial value of the internship form: a record
    added from a form whose duration was not touched carries 3, and is
    posted with 3. *)
Lemma internship_form_default (w : World) (company : jsstring) :
  blank company = false ->
  internshipForm w
  = {| InternshipState.company := company;
       InternshipState.role := InternshipState.role InternshipState.initial;
       InternshipState.durationMonths :=
         InternshipState.durationMonths InternshipState.initial;
       InternshipState.achievements :=
         InternshipState.achievements InternshipState.initial;
       InternshipState.hasCertificate :=
         InternshipState.hasCertificate InternshipState.initial |} ->
  exists i,
    InternshipsForm.internships (InternshipsForm.addInternship w)
    = InternshipsForm.internships w ++ [i]
    /\ Internship.durationMonths i = Some 3%Z
    /\ Payload.Internship.duration_months (App.internship_entry i) = 3%Z.
Proof.
  intros Hb Hform. unfold InternshipsForm.addInternship.
  destruct (negb (truthy_string (trim (InternshipState.company
                                         (internshipForm w))))) eqn:E.
  - apply truthy_trim in E. rewrite Hform in E. simpl in E. congruence.
  - eexists. split; [reflexivity|]. rewrite Hform. split; reflexivity.
Qed.

(** The duration input falls back to 1, like the payload builder. *)
Example duration_input_fallback :
  InternshipState.durationMonths
    (internshipForm (InternshipsForm.durationMonths_onChange None initial_world))
  = 1%Z.
Proof. reflexivity. Qed.

(* ================================================================== *)
(** * Skills: removal and the no-duplicates invariant *)
(* ================================================================== *)

Lemma eqb_refl (s : jsstring) : JS.eqb s s = true.
Proof. apply eqb_eq. reflexivity. Qed.

Lemma eqb_neq (s t : jsstring) : JS.eqb s t = false <-> s <> t.
Proof.
  split.
  - intros H E. apply eqb_eq in E. congruence.
  - intros H. destruct (JS.eqb s t) eqn:E; [apply eqb_eq in E; contradiction|].
    reflexivity.
Qed.

Lemma filter_absent (skill : jsstring) (l : list jsstring) :
  ~ In skill l -> filter (fun s => negb (JS.eqb s skill)) l = l.
Proof.
  induction l as [|x l IH]; intros H; simpl; [reflexivity|].
  destruct (JS.eqb x skill) eqn:E.
  - apply eqb_eq in E. subst x. exfalso. apply H. left. reflexivity.
  - simpl. f_equal. apply IH. intros Hin. apply H. right. exact Hin.
Qed.

(** X1. [removeSkill] takes out every occurrence of the skill and nothing else;
    removing a skill right after adding it gives the earlier selection back
    when the skill was not selected before. *)
Theorem removeSkill_removes (w : World) (skill : jsstring) :
  ~ In skill (SkillsForm.skills (SkillsForm.removeSkill skill w))
  /\ (forall other, other <> skill ->
        (In other (SkillsForm.skills (SkillsForm.removeSkill skill w))
         <-> In other (SkillsForm.skills w)))
  /\ (~ In skill (SkillsForm.skills w) ->
      SkillsForm.skills
        (SkillsForm.removeSkill skill (SkillsForm.addSkill skill w))
      = SkillsForm.skills w).
Proof.
  unfold SkillsForm.removeSkill. rewrite skills_onChange.
  split; [|split].
  - intros H. apply filter_In in H. destruct H as [_ H].
    rewrite eqb_refl in H. discriminate.
  - intros other Hne. rewrite filter_In. split; [tauto|].
    intros Hin. split; [exact Hin|].
    apply negb_true_iff. apply eqb_neq. exact Hne.
  - intros Habs. rewrite skills_onChange. unfold SkillsForm.addSkill.
    destruct (includes (SkillsForm.skills w) skill) eqn:E.
    + apply includes_In in E. contradiction.
    + simpl. rewrite skills_onChange, filter_app. simpl.
      rewrite eqb_refl. simpl. rewrite app_nil_r. apply filter_absent.
      exact Habs.
Qed.

Lemma removeSkill_removes_witness :
  SkillsForm.skills
    (SkillsForm.removeSkill (lit "Go")
       (SkillsForm.addSkill (lit "Go") Sample.world_resume_step))
  = [lit "Python"].
Proof.
  apply (proj2 (proj2 (removeSkill_removes Sample.world_resume_step
                                            (lit "Go")))).
  simpl. intros [H|[]]. discriminate H.
Defined.

Lemma NoDup_snoc (x : jsstring) (l : list jsstring) :
  NoDup l -> ~ In x l -> NoDup (l ++ [x]).
Proof.
  intros Hl Hx. induction Hl as [|y l Hy Hl IH]; simpl.
  - constructor; [intros [] | constructor].
  - constructor.
    + intros Hin. apply in_app_or in Hin. destruct Hin as [Hin|[Hin|[]]].
      * contradiction.
      * subst y. apply Hx. left. reflexivity.
    + apply IH. intros Hin. apply Hx. right. exact Hin.
Qed.

(** X2. The selection never gains a duplicate: [addSkill], [removeSkill] and
    "Clear All" each turn a duplicate-free selection into a duplicate-free
    one. *)
Theorem skills_stay_distinct (w : World) (skill : jsstring) :
  NoDup (SkillsForm.skills w) ->
  NoDup (SkillsForm.skills (SkillsForm.addSkill skill w))
  /\ NoDup (SkillsForm.skills (SkillsForm.removeSkill skill w))
  /\ NoDup (SkillsForm.skills (SkillsForm.clearAll_onClick w)).
Proof.
  intros H. split; [|split].
  - unfold SkillsForm.addSkill.
    destruct (includes (SkillsForm.skills w) skill) eqn:E; simpl.
    + exact H.
    + rewrite skills_onChange. apply NoDup_snoc; [exact H|].
      intros Hin. apply includes_In in Hin. congruence.
  - unfold SkillsForm.removeSkill. rewrite skills_onChange.
    apply NoDup_filter. exact H.
  - constructor.
Qed.

Lemma skills_stay_distinct_witness :
  NoDup (SkillsForm.skills
           (SkillsForm.addSkill (lit "Python") Sample.world_resume_step)).
Proof.
  apply (skills_stay_distinct Sample.world_resume_step (lit "Python")).
  simpl. constructor; [intros [] | constructor].
Defined.

(* ================================================================== *)
(** * The list forms: successful add, double add, remove *)
(* ================================================================== *)

Lemma not_blank_truthy (s : jsstring) :
  blank s = false -> negb (truthy_string (trim s)) = false.
Proof.
  intros H. destruct (negb (truthy_string (trim s))) eqn:E; [|reflexivity].
  apply truthy_trim in E. congruence.
Qed.

Lemma trim_nonempty (s : jsstring) : blank s = false -> trim s <> [].
Proof. intros H E. apply trim_blank in E. congruence. Qed.

(** X3. With a name that is not blank, [addCert] appends one record (name and
    issuer trimmed, the year of the form), and empties the inputs: name and
    issuer become [''], year 2024; [scanning] and [scanResult] are kept. *)
Theorem addCert_appends (w : World) :
  blank (CertState.name (certForm w)) = false ->
  let w' := CertificationsForm.addCert w in
  CertificationsForm.certs w'
  = CertificationsForm.certs w
    ++ [ {| Certification.name := trim (CertState.name (certForm w));
            Certification.issuer := Some (trim (CertState.issuer (certForm w)));
            Certification.year := Some (CertState.year (certForm w)) |} ]
  /\ trim (CertState.name (certForm w)) <> []
  /\ CertState.name (certForm w') = []
  /\ CertState.issuer (certForm w') = []
  /\ CertState.year (certForm w') = 2024%Z
  /\ CertState.scanning (certForm w') = CertState.scanning (certForm w)
  /\ CertState.scanResult (certForm w') = CertState.scanResult (certForm w).
Proof.
  intros H. unfold CertificationsForm.addCert.
  rewrite (not_blank_truthy _ H). simpl.
  repeat split. apply trim_nonempty. exact H.
Qed.

Lemma addCert_appends_witness :
  CertificationsForm.certs
    (CertificationsForm.addCert
       (on_certForm (CertState.setIssuer (lit "CNCF "))
          (on_certForm (CertState.setName (lit " CKA")) initial_world)))
  = [] ++ [ {| Certification.name := lit "CKA";
               Certification.issuer := Some (lit "CNCF");
               Certification.year := Some 2024%Z |} ].
Proof.
  apply (addCert_appends
           (on_certForm (CertState.setIssuer (lit "CNCF "))
              (on_certForm (CertState.setName (lit " CKA")) initial_world))).
  reflexivity.
Defined.

(** X4. With a company that is not blank, [addInternship] appends one record:
    company, role and achievements trimmed, duration and certificate flag as
    in the form; the form goes back to its initial values (duration 3, flag
    off). *)
Theorem addInternship_appends (w : World) :
  blank (InternshipState.company (internshipForm w)) = false ->
  let form := internshipForm w in
  let w' := InternshipsForm.addInternship w in
  InternshipsForm.internships w'
  = InternshipsForm.internships w
    ++ [ {| Internship.company := trim (InternshipState.company form);
            Internship.role := Some (trim (InternshipState.role form));
            Internship.durationMonths :=
              Some (InternshipState.durationMonths form);
            Internship.achievements :=
              Some (trim (InternshipState.achievements form));
            Internship.hasCertificate :=
              Some (InternshipState.hasCertificate form) |} ]
  /\ internshipForm w' = InternshipState.initial
  /\ InternshipState.durationMonths (internshipForm w') = 3%Z.
Proof.
  intros H. unfold InternshipsForm.addInternship.
  rewrite (not_blank_truthy _ H). simpl. repeat split.
Qed.

Lemma addInternship_appends_witness :
  InternshipsForm.internships
    (InternshipsForm.addInternship
       (InternshipsForm.durationMonths_onChange (Some 6%Z)
          (on_internshipForm (Wizard.internship_company (lit "Acme "))
             initial_world)))
  = [] ++ [ {| Internship.company := lit "Acme";
               Internship.role := Some [];
               Internship.durationMonths := Some 6%Z;
               Internship.achievements := Some [];
               Internship.hasCertificate := Some false |} ].
Proof.
  apply (addInternship_appends
           (InternshipsForm.durationMonths_onChange (Some 6%Z)
              (on_internshipForm (Wizard.internship_company (lit "Acme "))
                 initial_world))).
  reflexivity.
Defined.

(** X5. Pressing "add" twice in a row adds at most one record, in each of the
    three forms: the first press either does nothing or empties the required
    field, so the second press does nothing. *)
Theorem add_twice_is_add_once (w : World) :
  CertificationsForm.addCert (CertificationsForm.addCert w)
  = CertificationsForm.addCert w
  /\ ProjectsForm.addProject (ProjectsForm.addProject w)
     = ProjectsForm.addProject w
  /\ InternshipsForm.addInternship (InternshipsForm.addInternship w)
     = InternshipsForm.addInternship w.
Proof.
  split; [|split].
  - destruct (negb (truthy_string (trim (CertState.name (certForm w)))))
      eqn:E.
    + assert (Hw : CertificationsForm.addCert w = w)
        by (unfold CertificationsForm.addCert; rewrite E; reflexivity).
      rewrite Hw. exact Hw.
    + unfold CertificationsForm.addCert at 2 3. rewrite E.
      unfold CertificationsForm.addCert. reflexivity.
  - destruct (negb (truthy_string (trim (ProjectState.title (projectForm w)))))
      eqn:E.
    + assert (Hw : ProjectsForm.addProject w = w)
        by (unfold ProjectsForm.addProject; rewrite E; reflexivity).
      rewrite Hw. exact Hw.
    + unfold ProjectsForm.addProject at 2 3. rewrite E.
      unfold ProjectsForm.addProject. reflexivity.
  - destruct (negb (truthy_string
                      (trim (InternshipState.company (internshipForm w)))))
      eqn:E.
    + assert (Hw : InternshipsForm.addInternship w = w)
        by (unfold InternshipsForm.addInternship; rewrite E; reflexivity).
      rewrite Hw. exact Hw.
    + unfold InternshipsForm.addInternship at 2 3. rewrite E.
      unfold InternshipsForm.addInternship. reflexivity.
Qed.

Lemma remove_last (A : Type) (l : list A) (x : A) :
  filter_index (fun _ j => negb (j =? List.length l)) (l ++ [x]) = l.
Proof.
  rewrite filter_index_remove.
  rewrite (skipn_all2 (l ++ [x])) by (rewrite length_app; simpl; lia).
  rewrite firstn_app, Nat.sub_diag, firstn_all. simpl.
  rewrite !app_nil_r. reflexivity.
Qed.

(** X6. Removing the record that was just added (it sits at the old length)
    gives the earlier list back, in each of the three forms. *)
Theorem add_then_remove_last (w : World) :
  (blank (CertState.name (certForm w)) = false ->
   CertificationsForm.certs
     (CertificationsForm.removeCert
        (List.length (CertificationsForm.certs w))
        (CertificationsForm.addCert w))
   = CertificationsForm.certs w)
  /\ (blank (ProjectState.title (projectForm w)) = false ->
      ProjectsForm.projects
        (ProjectsForm.removeProject
           (List.length (ProjectsForm.projects w))
           (ProjectsForm.addProject w))
      = ProjectsForm.projects w)
  /\ (blank (InternshipState.company (internshipForm w)) = false ->
      InternshipsForm.internships
        (InternshipsForm.removeInternship
           (List.length (InternshipsForm.internships w))
           (InternshipsForm.addInternship w))
      = InternshipsForm.internships w).
Proof.
  split; [|split]; intros H.
  - unfold CertificationsForm.addCert. rewrite (not_blank_truthy _ H).
    simpl. apply remove_last.
  - unfold ProjectsForm.addProject. rewrite (not_blank_truthy _ H).
    simpl. apply remove_last.
  - unfold InternshipsForm.addInternship. rewrite (not_blank_truthy _ H).
    simpl. apply remove_last.
Qed.

Lemma add_then_remove_last_witness :
  ProjectsForm.projects
    (ProjectsForm.removeProject 0
       (ProjectsForm.addProject Sample.world_project_typed))
  = [].
Proof.
  apply (proj1 (proj2 (add_then_remove_last Sample.world_project_typed))).
  reflexivity.
Defined.

Lemma filter_from_all (A : Type) (idx i : nat) (l : list A) :
  i + List.length l <= idx ->
  filter_from (fun _ j => negb (j =? idx)) i l = l.
Proof.
  revert i. induction l as [|x l IH]; intros i H; simpl; [reflexivity|].
  simpl in H. destruct (i =? idx) eqn:E; [apply Nat.eqb_eq in E; lia|].
  simpl. f_equal. apply IH. lia.
Qed.

(** X7. Removing an index at or past the end of the list leaves the list as it
    is, in each of the three forms. *)
Theorem remove_out_of_range (w : World) (idx : nat) :
  (List.length (CertificationsForm.certs w) <= idx ->
   CertificationsForm.certs (CertificationsForm.removeCert idx w)
   = CertificationsForm.certs w)
  /\ (List.length (ProjectsForm.projects w) <= idx ->
      ProjectsForm.projects (ProjectsForm.removeProject idx w)
      = ProjectsForm.projects w)
  /\ (List.length (InternshipsForm.internships w) <= idx ->
      InternshipsForm.internships (InternshipsForm.removeInternship idx w)
      = InternshipsForm.internships w).
Proof.
  split; [|split]; intros H; simpl; unfold filter_index;
    apply filter_from_all; simpl; exact H.
Qed.

Lemma remove_out_of_range_witness :
  CertificationsForm.certs
    (CertificationsForm.removeCert 1 Sample.world_resume_step)
  = [Sample.cert_bare].
Proof.
  apply (proj1 (remove_out_of_range Sample.world_resume_step 1)).
  simpl. lia.
Defined.

(* ================================================================== *)
(** * The controller: field updates, cursor moves, the payload *)
(* ================================================================== *)

(** X8. [updateData] replaces the field of [data] named by its key with the
    given value and changes nothing else: the other fields of [data]
    (also [resumeFile]), the cursor, [results], [loading], the forms and the
    environment are what they were.  Hence updates of different keys can be
    applied in either order, and of two updates of the same key the later
    one wins. *)
Theorem updateData_composes (u v : App.Update) (w : World) :
  (update_key u <> update_key v ->
   App.updateData u (App.updateData v w) = App.updateData v (App.updateData u w))
  /\ (update_key u = update_key v ->
      App.updateData u (App.updateData v w) = App.updateData u w)
  /\ AppState.step (app (App.updateData u w)) = AppState.step (app w)
  /\ AppState.results (app (App.updateData u w)) = AppState.results (app w)
  /\ env (App.updateData u w) = env w
  /\ (let d := AppState.data (app w) in
      let d' := AppState.data (app (App.updateData u w)) in
      match u with
      | App.skills x =>
          Intake.skills d' = x
          /\ Intake.certifications d' = Intake.certifications d
          /\ Intake.projects d' = Intake.projects d
          /\ Intake.internships d' = Intake.internships d
          /\ Intake.resumeText d' = Intake.resumeText d
      | App.certifications x =>
          Intake.skills d' = Intake.skills d
          /\ Intake.certifications d' = x
          /\ Intake.projects d' = Intake.projects d
          /\ Intake.internships d' = Intake.internships d
          /\ Intake.resumeText d' = Intake.resumeText d
      | App.projects x =>
          Intake.skills d' = Intake.skills d
          /\ Intake.certifications d' = Intake.certifications d
          /\ Intake.projects d' = x
          /\ Intake.internships d' = Intake.internships d
          /\ Intake.resumeText d' = Intake.resumeText d
      | App.internships x =>
          Intake.skills d' = Intake.skills d
          /\ Intake.certifications d' = Intake.certifications d
          /\ Intake.projects d' = Intake.projects d
          /\ Intake.internships d' = x
          /\ Intake.resumeText d' = Intake.resumeText d
      | App.resumeText x =>
          Intake.skills d' = Intake.skills d
          /\ Intake.certifications d' = Intake.certifications d
          /\ Intake.projects d' = Intake.projects d
          /\ Intake.internships d' = Intake.internships d
          /\ Intake.resumeText d' = Some x
      end
      /\ Intake.resumeFile d' = Intake.resumeFile d)
  /\ AppState.loading (app (App.updateData u w)) = AppState.loading (app w)
  /\ certForm (App.updateData u w) = certForm w
  /\ projectForm (App.updateData u w) = projectForm w
  /\ internshipForm (App.updateData u w) = internshipForm w
  /\ resumeUpload (App.updateData u w) = resumeUpload w.
Proof.
  split; [|split].
  - intros H. destruct u, v; try reflexivity; exfalso; apply H; reflexivity.
  - intros H. destruct u, v; try reflexivity; vm_compute in H; discriminate H.
  - destruct u; repeat split.
Qed.

Lemma updateData_composes_witness :
  App.updateData (App.skills [lit "Go"])
    (App.updateData (App.resumeText (lit "cv")) initial_world)
  = App.updateData (App.resumeText (lit "cv"))
      (App.updateData (App.skills [lit "Go"]) initial_world)
  /\ App.updateData (App.skills [lit "Go"])
       (App.updateData (App.skills [lit "Rust"]) initial_world)
     = App.updateData (App.skills [lit "Go"]) initial_world.
Proof.
  split.
  - apply (proj1 (updateData_composes (App.skills [lit "Go"])
                    (App.resumeText (lit "cv")) initial_world)).
    vm_compute. discriminate.
  - apply (proj1 (proj2 (updateData_composes (App.skills [lit "Go"])
                           (App.skills [lit "Rust"]) initial_world))).
    reflexivity.
Defined.

(** X9. The stepper never moves the cursor forward and clicking the same step
    twice changes nothing more; "Previous" goes back one step and stays at 0
    on step 0; "Previous" undoes "Next". *)
Theorem cursor_moves (w : World) (i : nat) :
  AppState.step (app (App.stepper_onClick i w)) <= AppState.step (app w)
  /\ App.stepper_onClick i (App.stepper_onClick i w) = App.stepper_onClick i w
  /\ AppState.step (app (App.previous_onClick w))
     = AppState.step (app w) - 1
  /\ AppState.step (app (App.previous_onClick (App.next_onClick w)))
     = AppState.step (app w)
  /\ AppState.data (app (App.previous_onClick (App.next_onClick w)))
     = AppState.data (app w).
Proof.
  split; [|split; [|split; [|split]]].
  - unfold App.stepper_onClick.
    destruct (i <=? AppState.step (app w)) eqn:E1; simpl.
    + apply Nat.leb_le in E1. exact E1.
    + destruct (i <? AppState.step (app w)) eqn:E2; simpl; [|lia].
      apply Nat.ltb_lt in E2. lia.
  - unfold App.stepper_onClick at 2 3.
    destruct ((i <=? AppState.step (app w)) || (i <? AppState.step (app w)))
      eqn:E.
    + unfold App.stepper_onClick. simpl. rewrite Nat.leb_refl. reflexivity.
    + unfold App.stepper_onClick. rewrite E. reflexivity.
  - simpl. lia.
  - simpl. lia.
  - reflexivity.
Qed.

Lemma map_map_ext (A B C : Type) (f : A -> B) (g : B -> C) (h : A -> C)
  (l : list A) : (forall x, g (f x) = h x) -> map g (map f l) = map h l.
Proof. intros H. rewrite map_map. apply map_ext. exact H. Qed.

(** X10. For intake lists of any length, the posted body keeps every list as long
    as it was and in the same order: the skills unchanged, and the names,
    titles and companies of the entries are those of the records, position
    by position. *)
Theorem payload_keeps_order (data : Intake.t) :
  let body := App.payload data in
  Payload.skills body = Intake.skills data
  /\ map Payload.Cert.name (Payload.certifications body)
     = map Certification.name (Intake.certifications data)
  /\ map Payload.Project.title (Payload.projects body)
     = map Project.title (Intake.projects data)
  /\ map Payload.Internship.company (Payload.internships body)
     = map Internship.company (Intake.internships data)
  /\ List.length (Payload.certifications body)
     = List.length (Intake.certifications data)
  /\ List.length (Payload.projects body)
     = List.length (Intake.projects data)
  /\ List.length (Payload.internships body)
     = List.length (Intake.internships data).
Proof.
  simpl. repeat split; try (apply map_map_ext; reflexivity);
    apply length_map.
Qed.

(** An intake without any record posts empty lists, not absent ones. *)
Example payload_initial :
  App.payload Intake.initial
  = {| Payload.skills := []; Payload.certifications := [];
       Payload.projects := []; Payload.internships := [];
       Payload.resume_text := [] |}.
Proof. reflexivity. Qed.

(* ================================================================== *)
(** * Certificate drops of any size *)
(* ================================================================== *)

Lemma for_of_cons (A : Type) (x : A) (l : list A) (body : A -> Eff.t unit)
  (w : World) :
  Eff.outcome (body x) w = Eff.Returned tt ->
  Eff.exec (Eff.for_of (x :: l) body) w
  = Eff.exec (Eff.for_of l body) (Eff.exec (body x) w).
Proof.
  unfold Eff.outcome, Eff.exec. simpl. unfold Eff.bind.
  destruct (body x w) as [o w']. simpl. intros ->. reflexivity.
Qed.

Lemma scan_file_certs (cs : list Certification.t)
  (dropped : File.t * Net ScanResult.t) (w : World) :
  CertificationsForm.certs
    (Eff.exec (CertificationsForm.scan_file cs dropped) w)
  = match scanned_cert dropped with
    | Some c => cs ++ [c]
    | None => CertificationsForm.certs w
    end.
Proof.
  destruct dropped as [file [|[r|]]]; unfold scanned_cert; simpl;
    try reflexivity.
  unfold CertificationsForm.scan_file. run_eff.
  destruct (CertificationsForm.identified_with_name r); reflexivity.
Qed.

Lemma scan_file_requests (cs : list Certification.t)
  (dropped : File.t * Net ScanResult.t) (w : World) :
  Env.requests (env (Eff.exec (CertificationsForm.scan_file cs dropped) w))
  = Env.requests (env w)
    ++ [PostFile (lit "/api/score/certifications/scan") (fst dropped)].
Proof.
  destruct dropped as [file [|[r|]]]; try reflexivity.
  unfold CertificationsForm.scan_file. run_eff.
  destruct (CertificationsForm.identified_with_name r); reflexivity.
Qed.

Lemma scan_loop_certs (cs : list Certification.t)
  (fs : list (File.t * Net ScanResult.t)) :
  forall w,
    CertificationsForm.certs
      (Eff.exec (Eff.for_of fs (CertificationsForm.scan_file cs)) w)
    = match last_scanned fs with
      | Some c => cs ++ [c]
      | None => CertificationsForm.certs w
      end.
Proof.
  induction fs as [|f rest IH]; intros w; [reflexivity|].
  rewrite for_of_cons by apply scan_file_returns.
  rewrite IH. simpl. destruct (last_scanned rest); [reflexivity|].
  apply scan_file_certs.
Qed.

Lemma scan_loop_requests (cs : list Certification.t)
  (fs : list (File.t * Net ScanResult.t)) :
  forall w,
    Env.requests
      (env (Eff.exec (Eff.for_of fs (CertificationsForm.scan_file cs)) w))
    = Env.requests (env w)
      ++ map (fun f => PostFile (lit "/api/score/certifications/scan") (fst f))
             fs.
Proof.
  induction fs as [|f rest IH]; intros w.
  - simpl. rewrite app_nil_r. reflexivity.
  - rewrite for_of_cons by apply scan_file_returns.
    rewrite IH, scan_file_requests. simpl. rewrite <- app_assoc. reflexivity.
Qed.

(** X11. One drop adds at most one certification, however many files it holds:
    afterwards the list is the list from before the drop, followed by the
    record of the last identified file if there is one.  Records of earlier
    identified files of the same drop are lost. *)
Theorem cert_drop_keeps_last (fs : list (File.t * Net ScanResult.t))
  (w : World) :
  let w' := Eff.exec (CertificationsForm.onDrop fs) w in
  CertificationsForm.certs w'
  = match last_scanned fs with
    | Some c => CertificationsForm.certs w ++ [c]
    | None => CertificationsForm.certs w
    end
  /\ List.length (CertificationsForm.certs w')
     <= List.length (CertificationsForm.certs w) + 1.
Proof.
  simpl. rewrite onDrop_captures, scan_loop_certs.
  split; [reflexivity|].
  destruct (last_scanned fs); [rewrite length_app; simpl|]; lia.
Qed.

(** X12. A drop sends one scan request per file, in the order of the files,
    whatever the earlier requests met. *)
Theorem cert_drop_requests (fs : list (File.t * Net ScanResult.t))
  (w : World) :
  Env.requests (env (Eff.exec (CertificationsForm.onDrop fs) w))
  = Env.requests (env w)
    ++ map (fun f => PostFile (lit "/api/score/certifications/scan") (fst f))
           fs.
Proof. rewrite onDrop_captures. apply scan_loop_requests. Qed.

(** X13. A scan that answers without identifying a certificate (not identified,
    or no name, or an empty name) is kept as the scan result, adds no
    record and touches no other intake data; unless the response itself
    carries an [error] text, the card shows no error. *)
Theorem scan_unidentified (w : World) (file : File.t) (r : ScanResult.t) :
  CertificationsForm.identified_with_name r = None ->
  let w' := Eff.exec (CertificationsForm.onDrop [(file, Responded (Some r))])
                     w in
  app w' = app w
  /\ CertState.scanResult (certForm w') = Some r
  /\ CertState.scanning (certForm w') = false
  /\ (ScanResult.error r = None ->
      CertificationsForm.inline_error (certForm w') = None).
Proof.
  intros H. simpl. rewrite onDrop_captures, for_of_single.
  unfold CertificationsForm.scan_file. run_eff. rewrite H. simpl.
  repeat split. intros He. unfold CertificationsForm.inline_error. simpl.
  rewrite He. reflexivity.
Qed.

Lemma scan_unidentified_witness :
  let r := {| ScanResult.identified := Some false;
              ScanResult.cert_name := None;
              ScanResult.match_ := None;
              ScanResult.extracted_text_preview := Some (lit "lorem");
              ScanResult.error := None |} in
  let w' := Eff.exec (CertificationsForm.onDrop
                        [(Sample.file_cert, Responded (Some r))])
                     Sample.world_resume_step in
  app w' = app Sample.world_resume_step
  /\ CertState.scanResult (certForm w') = Some r
  /\ CertState.scanning (certForm w') = false
  /\ (ScanResult.error r = None ->
      CertificationsForm.inline_error (certForm w') = None).
Proof.
  apply (scan_unidentified Sample.world_resume_step Sample.file_cert).
  reflexivity.
Defined.

(* ================================================================== *)
(** * Resume drops *)
(* ================================================================== *)

(** X14. A resume drop without a file does nothing at all; with files, only the
    first one is used and exactly one scan request is sent for it, whatever
    the request meets. *)
Theorem resume_drop_first_file (w : World) (file : File.t)
  (rest : list File.t) (net : Net ResumeScan.t) :
  ResumeUpload.onDrop [] net w = (Eff.Returned tt, w)
  /\ ResumeUpload.onDrop (file :: rest) net w
     = ResumeUpload.onDrop [file] net w
  /\ Env.requests (env (Eff.exec (ResumeUpload.onDrop (file :: rest) net) w))
     = Env.requests (env w) ++ [PostFile (lit "/api/score/resume") file]
  /\ ResumeState.fileName
       (resumeUpload (Eff.exec (ResumeUpload.onDrop (file :: rest) net) w))
     = File.name file.
Proof.
  split; [reflexivity|]. split; [reflexivity|].
  destruct net as [|[r|]]; split; reflexivity.
Qed.

Lemma marker_with_words (r : ResumeScan.t) (file : File.t) :
  ResumeUpload.has_words r = true ->
  ResumeUpload.marker r file
  = lit "[Resume uploaded: " ++ File.name file ++ lit "]" ++ [newline]
    ++ match ResumeScan.suggestions r with
       | Some l => join [newline] l
       | None => []
       end.
Proof.
  intros H. unfold ResumeUpload.marker. rewrite H.
  rewrite <- !app_assoc. repeat f_equal.
  destruct (ResumeScan.suggestions r) as [l|]; simpl; [|reflexivity].
  destruct (join [newline] l); reflexivity.
Qed.

(** X15. When the scan counts words, the finished file read replaces the resume
    text, pasted or not, by the upload marker followed by the suggestions,
    one per line; that text is never empty, so it is what a later submission
    posts as [resume_text].  The file's own content is not part of it. *)
Theorem resume_scan_with_words (w : World) (file : File.t)
  (rest : list File.t) (r : ResumeScan.t) :
  ResumeUpload.has_words r = true ->
  Env.readers (env w) = [] ->
  let w' := ResumeUpload.deliver ResumeUpload.load
              (Eff.exec (ResumeUpload.onDrop (file :: rest)
                           (Responded (Some r))) w) in
  let text := lit "[Resume uploaded: " ++ File.name file ++ lit "]"
              ++ [newline]
              ++ match ResumeScan.suggestions r with
                 | Some l => join [newline] l
                 | None => []
                 end in
  Intake.resumeText (AppState.data (app w')) = Some text
  /\ Payload.resume_text (App.payload (AppState.data (app w'))) = text
  /\ Env.readers (env w') = [].
Proof.
  intros Hw Hr. simpl. unfold ResumeUpload.onDrop. run_eff.
  unfold ResumeUpload.deliver. simpl. rewrite Hr. simpl.
  rewrite (marker_with_words r file Hw). repeat split.
Qed.

Lemma resume_scan_with_words_witness :
  let r := {| ResumeScan.score := Some 70%Z;
              ResumeScan.section_scores := None;
              ResumeScan.total_words := Some 120%Z;
              ResumeScan.suggestions := Some [lit "Add links"] |} in
  Intake.resumeText
    (AppState.data
       (app (ResumeUpload.deliver ResumeUpload.load
               (Eff.exec (ResumeUpload.onDrop [Sample.file_cv]
                            (Responded (Some r))) Sample.world_pasted))))
  = Some (lit "[Resume uploaded: " ++ lit "cv.pdf" ++ lit "]" ++ [newline]
          ++ lit "Add links").
Proof.
  apply (resume_scan_with_words Sample.world_pasted Sample.file_cv []
           {| ResumeScan.score := Some 70%Z;
              ResumeScan.section_scores := None;
              ResumeScan.total_words := Some 120%Z;
              ResumeScan.suggestions := Some [lit "Add links"] |}).
  - reflexivity.
  - reflexivity.
Defined.

(* ================================================================== *)
(** * Handlers cut at their [await]: agreement with the uncut handlers *)
(* ================================================================== *)

(** When nothing happens between the request and its outcome, a handler cut
    at its [await] does what the uncut handler does. *)
Lemma calculateScore_split (net : Net Json) (w : World) :
  Eff.exec (App.calculateScore net) w
  = Eff.exec (Wizard.calculateScore_finish net)
             (Eff.exec Wizard.calculateScore_start w).
Proof. destruct net as [|[report|]]; reflexivity. Qed.

Lemma scan_file_split (cs : list Certification.t) (file : File.t)
  (net : Net ScanResult.t) (w : World) :
  Eff.exec (CertificationsForm.scan_file cs (file, net)) w
  = Eff.exec (Wizard.scan_finish true cs net)
             (Eff.exec (Wizard.scan_start true file) w).
Proof.
  destruct net as [|[r|]]; reflexivity.
Qed.

Lemma resume_onDrop_split (file : File.t) (rest : list File.t)
  (net : Net ResumeScan.t) (w : World) :
  Eff.exec (ResumeUpload.onDrop (file :: rest) net) w
  = Eff.exec (Wizard.upload_finish true file net)
             (Eff.exec (Wizard.upload_start file) w).
Proof. destruct net as [|[r|]]; reflexivity. Qed.

(* ================================================================== *)
(** * What holds in every state the page can reach *)
(* ================================================================== *)

Lemma Forall_filter_from (A : Type) (P : A -> Prop) (p : A -> nat -> bool)
  (l : list A) :
  Forall P l -> forall i, Forall P (filter_from p i l).
Proof.
  induction 1 as [|x l Hx Hl IH]; intros i; simpl; [constructor|].
  destruct (p x i); [constructor; [exact Hx | apply IH] | apply IH].
Qed.

Lemma Forall_snoc (A : Type) (P : A -> Prop) (l : list A) (x : A) :
  Forall P l -> P x -> Forall P (l ++ [x]).
Proof.
  intros Hl Hx. apply Forall_app. split; [exact Hl|].
  constructor; [exact Hx | constructor].
Qed.

Lemma NoDup_filter_skill (skill : jsstring) (l : list jsstring) :
  NoDup l -> NoDup (filter (fun s => negb (JS.eqb s skill)) l).
Proof. apply NoDup_filter. Qed.

Lemma tech_stack_clean (text : jsstring) :
  Forall (fun s => s <> [] /\ trim s = s /\ ~ In comma s)
         (ProjectsForm.tech_stack_of text).
Proof. apply Forall_forall. intros s H. exact (tech_stack_entries text s H). Qed.

Lemma truthy_nonempty (s : jsstring) : truthy_string s = true -> s <> [].
Proof. destruct s; [discriminate | discriminate]. Qed.

Lemma record_of_project_ok (form : ProjectState.t) :
  truthy_string (trim (ProjectState.title form)) = true ->
  project_ok (ProjectsForm.record_of form).
Proof.
  intros H. unfold project_ok, ProjectsForm.record_of. simpl.
  split; [apply truthy_nonempty; exact H|].
  split; [apply trim_idempotent|].
  split; [discriminate|]. split; [discriminate|].
  eexists. split; [reflexivity | apply tech_stack_clean].
Qed.

Lemma record_of_internship_ok (form : InternshipState.t) :
  truthy_string (trim (InternshipState.company form)) = true ->
  InternshipState.durationMonths form <> 0%Z ->
  internship_ok (InternshipsForm.record_of form).
Proof.
  intros H Hd. unfold internship_ok, InternshipsForm.record_of. simpl.
  split; [apply truthy_nonempty; exact H|].
  split; [apply trim_idempotent|].
  repeat (split; [discriminate|]).
  eexists. split; [reflexivity | exact Hd].
Qed.

Lemma identified_cert_ok (r : ScanResult.t) (n : jsstring) :
  CertificationsForm.identified_with_name r = Some n ->
  cert_ok {| Certification.name := n;
             Certification.issuer := Some (CertificationsForm.tierLabel r);
             Certification.year := Some 2024%Z |}.
Proof.
  unfold CertificationsForm.identified_with_name.
  destruct (ScanResult.identified r) as [[|]|]; try discriminate.
  destruct (ScanResult.cert_name r) as [m|]; try discriminate.
  destruct (truthy_string m) eqn:E; try discriminate.
  intros H. inversion H. subst m. unfold cert_ok. simpl.
  split; [apply truthy_nonempty; exact E|]. split; [reflexivity | discriminate].
Qed.

Lemma or_number_nonzero (x : option Z) : or_number x 1 <> 0%Z.
Proof.
  unfold or_number, truthy_number. destruct x as [n|]; [|discriminate].
  destruct (n =? 0)%Z eqn:E; simpl; [discriminate|].
  apply Z.eqb_neq. exact E.
Qed.

Lemma more_in (reqs : list Request) (r : Request) :
  (exists url body, In (PostJson url body) reqs) ->
  exists url body, In (PostJson url body) (reqs ++ [r]).
Proof.
  intros [u [b Hin]]. exists u, b. apply in_or_app. left. exact Hin.
Qed.

Ltac break_world w :=
  let a := fresh "a" in
  let d := fresh "d" in
  destruct w as [a ? ? ? ? ?]; destruct a as [? d ? ?]; destruct d;
  unfold world_invariant, SkillsForm.skills, CertificationsForm.certs,
    ProjectsForm.projects, InternshipsForm.internships in *; simpl in *.

Ltac keep_invariant :=
  repeat match goal with
         | H : _ /\ _ |- _ => destruct H
         end;
  repeat split; simpl; auto; try lia; try discriminate;
  try (let E := fresh "E" in intros E; apply more_in; solve [auto]).

(** The pieces of the waiting handlers keep the invariant of the cells. *)
Lemma calculateScore_start_world (w : World) :
  world_invariant w ->
  world_invariant (Eff.exec Wizard.calculateScore_start w).
Proof.
  intros Hw. unfold Wizard.calculateScore_start. run_eff.
  break_world w. keep_invariant.
  intros _. eexists. eexists. apply in_or_app. right. left. reflexivity.
Qed.

Lemma calculateScore_finish_world (net : Net Json) (w : World) :
  world_invariant w ->
  AppState.loading (app w) = true ->
  world_invariant (Eff.exec (Wizard.calculateScore_finish net) w).
Proof.
  intros Hw Hreq. unfold Wizard.calculateScore_finish, Wizard.arrive.
  destruct net as [|[report|]]; run_eff; break_world w; keep_invariant.
Qed.

Lemma scan_start_world (mounted : bool) (file : File.t) (w : World) :
  world_invariant w ->
  world_invariant (Eff.exec (Wizard.scan_start mounted file) w).
Proof.
  intros Hw. unfold Wizard.scan_start, Wizard.setCert.
  destruct mounted; run_eff; break_world w; keep_invariant.
Qed.

Lemma scan_finish_world (mounted : bool) (cs : list Certification.t)
  (net : Net ScanResult.t) (w : World) :
  Forall cert_ok cs -> world_invariant w ->
  world_invariant (Eff.exec (Wizard.scan_finish mounted cs net) w).
Proof.
  intros Hcs Hw. unfold Wizard.scan_finish, Wizard.setCert, Wizard.arrive.
  destruct net as [|[r|]]; destruct mounted; run_eff;
    try (break_world w; keep_invariant; fail);
    pose proof (identified_cert_ok r) as Hok;
    destruct (CertificationsForm.identified_with_name r) as [n|]; simpl;
    try specialize (Hok n eq_refl);
    break_world w; keep_invariant; apply Forall_snoc; assumption.
Qed.

Lemma upload_start_world (file : File.t) (w : World) :
  world_invariant w ->
  world_invariant (Eff.exec (Wizard.upload_start file) w).
Proof.
  intros Hw. unfold Wizard.upload_start. run_eff.
  break_world w. keep_invariant.
Qed.

Lemma upload_finish_world (mounted : bool) (file : File.t)
  (net : Net ResumeScan.t) (w : World) :
  world_invariant w ->
  world_invariant (Eff.exec (Wizard.upload_finish mounted file net) w).
Proof.
  intros Hw. unfold Wizard.upload_finish, Wizard.setResume, Wizard.arrive.
  destruct net as [|[r|]]; destruct mounted; run_eff; break_world w;
    keep_invariant.
Qed.

(** None of them touches [loading], except [calculateScore]. *)
Lemma scan_start_loading (mounted : bool) (file : File.t) (w : World) :
  AppState.loading (app (Eff.exec (Wizard.scan_start mounted file) w))
  = AppState.loading (app w).
Proof. destruct mounted; reflexivity. Qed.

Lemma scan_finish_loading (mounted : bool) (cs : list Certification.t)
  (net : Net ScanResult.t) (w : World) :
  AppState.loading (app (Eff.exec (Wizard.scan_finish mounted cs net) w))
  = AppState.loading (app w).
Proof.
  unfold Wizard.scan_finish, Wizard.setCert, Wizard.arrive.
  destruct net as [|[r|]]; destruct mounted; run_eff; try reflexivity;
    destruct (CertificationsForm.identified_with_name r); reflexivity.
Qed.

Lemma upload_finish_loading (mounted : bool) (file : File.t)
  (net : Net ResumeScan.t) (w : World) :
  AppState.loading (app (Eff.exec (Wizard.upload_finish mounted file net) w))
  = AppState.loading (app w).
Proof. destruct net as [|[r|]]; destruct mounted; reflexivity. Qed.

(** ** The pending handlers *)

Lemma in_flight_count (w : World) (ts : list Wizard.Task) :
  Wizard.scoring_in_flight {| Wizard.world := w; Wizard.pending := ts |}
  = List.length (filter is_score ts).
Proof. reflexivity. Qed.

Lemma nth_error_parts (ts : list Wizard.Task) (k : nat) (t : Wizard.Task) :
  nth_error ts k = Some t ->
  exists l1 l2,
    ts = l1 ++ t :: l2
    /\ Wizard.without k ts = l1 ++ l2
    /\ forall t', Wizard.replaced k t' ts = l1 ++ t' :: l2.
Proof.
  intros H. destruct (nth_error_split ts k H) as [l1 [l2 [Hts Hlen]]].
  exists l1, l2. split; [exact Hts|].
  assert (Hf : firstn k ts = l1).
  { rewrite Hts, <- Hlen, firstn_app, Nat.sub_diag, firstn_all. simpl.
    apply app_nil_r. }
  assert (Hs : skipn (S k) ts = l2).
  { rewrite Hts, <- Hlen.
    change (l1 ++ t :: l2) with (l1 ++ [t] ++ l2). rewrite app_assoc.
    replace (S (List.length l1)) with (List.length (l1 ++ [t]))
      by (rewrite length_app; simpl; lia).
    rewrite skipn_app, Nat.sub_diag, skipn_all. reflexivity. }
  unfold Wizard.without, Wizard.replaced. rewrite Hf, Hs.
  split; [reflexivity | intros t'; reflexivity].
Qed.

Lemma count_parts (l1 l2 : list Wizard.Task) (t : Wizard.Task) :
  List.length (filter is_score (l1 ++ t :: l2))
  = List.length (filter is_score (l1 ++ l2))
    + (if is_score t then 1 else 0).
Proof.
  rewrite !filter_app, !length_app. simpl.
  destruct (is_score t); simpl; lia.
Qed.

Lemma count_unmounted (ts : list Wizard.Task) :
  List.length (filter is_score (map Wizard.unmounted ts))
  = List.length (filter is_score ts).
Proof.
  induction ts as [|t ts IH]; [reflexivity|].
  simpl. destruct t; simpl; rewrite IH; reflexivity.
Qed.

Lemma tasks_unmounted (ts : list Wizard.Task) :
  Forall task_ok ts -> Forall task_ok (map Wizard.unmounted ts).
Proof.
  induction 1 as [|t ts Ht Hts IH]; simpl; [constructor|].
  constructor; [destruct t; exact Ht | exact IH].
Qed.


Lemma now_invariant (f : World -> World) (p : Wizard.Page) :
  page_invariant p ->
  world_invariant (f (Wizard.world p)) ->
  AppState.loading (app (f (Wizard.world p)))
  = AppState.loading (app (Wizard.world p)) ->
  page_invariant (Wizard.now f p).
Proof.
  intros [_ [Hts Hn]] Hw Hl. destruct p as [w ts]. simpl in *.
  split; [exact Hw|]. split; [exact Hts|].
  rewrite in_flight_count in *. simpl. rewrite Hl. exact Hn.
Qed.

Ltac same_loading :=
  simpl;
  repeat match goal with
         | |- context [if ?c then _ else _] => destruct c
         end;
  reflexivity.

(** Handlers that do not wait keep the invariant and leave [loading]. *)
Lemma sync_invariant (ev : Wizard.Event) (p : Wizard.Page) :
  page_invariant p -> Wizard.enabled ev p = true ->
  match ev with
  | Wizard.CalculateClick | Wizard.CertDrop _ | Wizard.ResumeDrop _
  | Wizard.Arrive _ _ | Wizard.Reload => True
  | _ => page_invariant (Wizard.dispatch ev p)
  end.
Proof.
  intros Hp Hen. pose proof Hp as [Hw _].
  destruct p as [w ts]. simpl in Hw, Hen.
  destruct ev; try exact I; simpl Wizard.dispatch;
    cbn [Wizard.enabled Wizard.world] in Hen;
    (apply now_invariant; [exact Hp | | ]); cbn [Wizard.world].
  - (* StepperClick *)
    unfold App.stepper_onClick.
    destruct ((i <=? AppState.step (app w)) || (i <? AppState.step (app w)))
      eqn:E; [|exact Hw].
    assert (Hi : i <= AppState.step (app w)).
    { apply orb_true_iff in E. destruct E as [E|E];
        [apply Nat.leb_le in E | apply Nat.ltb_lt in E]; lia. }
    break_world w. keep_invariant;
      try (intros E5; match goal with H : _ = 5 -> _ |- _ => apply H end; lia).
  - unfold App.stepper_onClick. same_loading.
  - (* PreviousClick *) break_world w. keep_invariant; try (intros E5; lia).
  - reflexivity.
  - (* NextClick *)
    break_world w. apply andb_true_iff in Hen. destruct Hen as [_ Hen].
    apply Nat.ltb_lt in Hen. keep_invariant; try (intros E5; lia).
  - reflexivity.
  - (* SkillAdd *)
    unfold SkillsForm.addSkill.
    destruct (includes (SkillsForm.skills w) skill) eqn:E; simpl;
      [exact Hw|].
    assert (Hnot : ~ In skill (SkillsForm.skills w)).
    { intros Hin. apply includes_In in Hin. congruence. }
    break_world w. keep_invariant; try (apply NoDup_snoc; assumption).
  - unfold SkillsForm.addSkill. same_loading.
  - (* SkillRemove *)
    break_world w. keep_invariant; try (apply NoDup_filter_skill; assumption).
  - reflexivity.
  - (* SkillsClear *) break_world w. keep_invariant; try constructor.
  - reflexivity.
  - (* CertNameInput *) break_world w. keep_invariant.
  - reflexivity.
  - (* CertIssuerInput *) break_world w. keep_invariant.
  - reflexivity.
  - (* CertAdd *)
    apply andb_true_iff in Hen. destruct Hen as [_ Hen].
    unfold CertificationsForm.addCert. rewrite Hen. simpl.
    break_world w. keep_invariant.
    apply Forall_snoc; [assumption|].
    unfold cert_ok. simpl.
    split; [apply truthy_nonempty; exact Hen|].
    split; [f_equal; assumption | discriminate].
  - unfold CertificationsForm.addCert. same_loading.
  - (* CertRemove *)
    break_world w. keep_invariant; try (apply Forall_filter_from; assumption).
  - reflexivity.
  - (* ProjectTitleInput *) break_world w. keep_invariant.
  - reflexivity.
  - (* ProjectGithubInput *) break_world w. keep_invariant.
  - reflexivity.
  - (* ProjectTechInput *) break_world w. keep_invariant.
  - reflexivity.
  - (* ProjectDescriptionInput *) break_world w. keep_invariant.
  - reflexivity.
  - (* ProjectAdd *)
    apply andb_true_iff in Hen. destruct Hen as [_ Hen].
    unfold ProjectsForm.addProject. rewrite Hen. simpl.
    pose proof (record_of_project_ok (projectForm w) Hen) as Hrec.
    break_world w. keep_invariant; try (apply Forall_snoc; assumption).
  - unfold ProjectsForm.addProject. same_loading.
  - (* ProjectRemove *)
    break_world w. keep_invariant; try (apply Forall_filter_from; assumption).
  - reflexivity.
  - (* InternCompanyInput *) break_world w. keep_invariant.
  - reflexivity.
  - (* InternRoleInput *) break_world w. keep_invariant.
  - reflexivity.
  - (* InternDurationInput *)
    break_world w. keep_invariant; try apply or_number_nonzero.
  - reflexivity.
  - (* InternCertificateInput *) break_world w. keep_invariant.
  - reflexivity.
  - (* InternAchievementsInput *) break_world w. keep_invariant.
  - reflexivity.
  - (* InternAdd *)
    apply andb_true_iff in Hen. destruct Hen as [_ Hen].
    unfold InternshipsForm.addInternship. rewrite Hen. simpl.
    assert (Hd : InternshipState.durationMonths (internshipForm w) <> 0%Z)
      by (unfold world_invariant in Hw; tauto).
    pose proof (record_of_internship_ok (internshipForm w) Hen Hd) as Hrec.
    break_world w. keep_invariant; try (apply Forall_snoc; assumption).
  - unfold InternshipsForm.addInternship. same_loading.
  - (* InternRemove *)
    break_world w. keep_invariant; try (apply Forall_filter_from; assumption).
  - reflexivity.
  - (* ResumeTextInput *) break_world w. keep_invariant.
  - reflexivity.
  - (* ReaderDone *)
    unfold ResumeUpload.deliver.
    destruct (Env.readers (env w)) as [|r rest] eqn:E; [exact Hw|].
    destruct ev; break_world w; keep_invariant.
  - unfold ResumeUpload.deliver.
    destruct (Env.readers (env w)); [reflexivity|]. destruct ev; reflexivity.
Qed.

(** The outcome of a pending request arrives. *)
Lemma arrive_invariant (k : nat) (a : Wizard.Arrival) (p : Wizard.Page) :
  page_invariant p -> page_invariant (Wizard.resume_task k a p).
Proof.
  intros Hp. pose proof Hp as [Hw [Hts Hn]]. unfold Wizard.resume_task.
  destruct p as [w ts]. simpl in *. rewrite in_flight_count in Hn.
  destruct (nth_error ts k) as [t|] eqn:Hk; [|exact Hp].
  destruct (nth_error_parts ts k t Hk) as [l1 [l2 [Hsplit [Hwo Hrep]]]].
  assert (Hl12 : Forall task_ok (l1 ++ l2)).
  { rewrite Hsplit in Hts. apply Forall_app in Hts. destruct Hts as [H1 H2].
    inversion H2. apply Forall_app. split; assumption. }
  assert (Ht : task_ok t).
  { rewrite Hsplit in Hts. apply Forall_app in Hts. destruct Hts as [_ H2].
    inversion H2. assumption. }
  rewrite Hsplit, count_parts in Hn.
  destruct t as [|mounted cs file rest|mounted file]; destruct a;
    try exact Hp.
  - (* calculateScore goes on *)
    simpl in Hn.
    assert (Hload : AppState.loading (app w) = true).
    { destruct (AppState.loading (app w)); [reflexivity | lia]. }
    rewrite Hload in Hn.
    split; [|split]; simpl.
    + apply calculateScore_finish_world; assumption.
    + rewrite Hwo. exact Hl12.
    + rewrite in_flight_count, Hwo.
      replace (AppState.loading
                 (app (Eff.exec (Wizard.calculateScore_finish net) w)))
        with false by (destruct net as [|[r|]]; reflexivity).
      lia.
  - (* the certificate handler goes on *)
    simpl in Hn, Ht.
    pose proof (scan_finish_world mounted cs net w Ht Hw) as Hw1.
    pose proof (scan_finish_loading mounted cs net w) as Hl1.
    destruct rest as [|next rest'].
    + split; [exact Hw1|]. split; simpl.
      * rewrite Hwo. exact Hl12.
      * rewrite in_flight_count, Hwo, Hl1. lia.
    + split; [apply scan_start_world; exact Hw1|]. split; simpl.
      * rewrite Hrep. apply Forall_app in Hl12. destruct Hl12 as [H1 H2].
        apply Forall_app. split; [exact H1|]. constructor; [exact Ht|exact H2].
      * rewrite in_flight_count, Hrep, count_parts, scan_start_loading, Hl1.
        simpl. lia.
  - (* the resume handler goes on *)
    simpl in Hn.
    split; [apply upload_finish_world; exact Hw|]. split; simpl.
    + rewrite Hwo. exact Hl12.
    + rewrite in_flight_count, Hwo, upload_finish_loading. lia.
Qed.

Lemma count_snoc (ts : list Wizard.Task) (t : Wizard.Task) :
  List.length (filter is_score (ts ++ [t]))
  = List.length (filter is_score ts) + (if is_score t then 1 else 0).
Proof.
  rewrite filter_app, length_app. simpl. destruct (is_score t); reflexivity.
Qed.

Lemma initial_invariant : page_invariant Wizard.initial_page.
Proof.
  split; [|split; [constructor | reflexivity]].
  unfold world_invariant. simpl.
  repeat split; try constructor; try lia; discriminate.
Qed.

Lemma dispatch_invariant (ev : Wizard.Event) (p : Wizard.Page) :
  page_invariant p -> Wizard.enabled ev p = true ->
  page_invariant (Wizard.dispatch ev p).
Proof.
  intros Hp Hen. pose proof (sync_invariant ev p Hp Hen) as Hsync.
  destruct ev; try exact Hsync; clear Hsync.
  - (* CalculateClick *)
    destruct Hp as [Hw [Hts Hn]]. destruct p as [w ts]. simpl in *.
    rewrite in_flight_count in Hn.
    assert (Hload : AppState.loading (app w) = false).
    { apply andb_true_iff in Hen. destruct Hen as [_ Hen].
      apply negb_true_iff in Hen. exact Hen. }
    rewrite Hload in Hn.
    split; [apply calculateScore_start_world; exact Hw|]. split; simpl.
    + apply Forall_snoc; [exact Hts | exact I].
    + rewrite in_flight_count, count_snoc. simpl. lia.
  - (* CertDrop *)
    destruct acceptedFiles as [|file rest]; [exact Hp|].
    destruct Hp as [Hw [Hts Hn]]. destruct p as [w ts]. simpl in *.
    rewrite in_flight_count in Hn.
    split; [apply scan_start_world; exact Hw|]. split; simpl.
    + apply Forall_snoc; [exact Hts|]. simpl.
      unfold world_invariant in Hw. tauto.
    + rewrite in_flight_count, count_snoc. simpl. lia.
  - (* ResumeDrop *)
    destruct acceptedFiles as [|file rest]; [exact Hp|].
    destruct Hp as [Hw [Hts Hn]]. destruct p as [w ts]. simpl in *.
    rewrite in_flight_count in Hn.
    split; [apply upload_start_world; exact Hw|]. split; simpl.
    + apply Forall_snoc; [exact Hts | exact I].
    + rewrite in_flight_count, count_snoc. simpl. lia.
  - (* Arrive *) apply arrive_invariant. exact Hp.
  - (* Reload *) apply initial_invariant.
Qed.

Lemma remount_invariant (before after : Wizard.Page) :
  page_invariant after -> page_invariant (Wizard.remount before after).
Proof.
  intros H. unfold Wizard.remount.
  destruct (AppState.step (app (Wizard.world before))
            =? AppState.step (app (Wizard.world after)));
    [exact H|].
  destruct H as [Hw [Hts Hn]]. destruct after as [w ts]. simpl in *.
  rewrite in_flight_count in Hn.
  split; [|split]; simpl.
  - break_world w. keep_invariant.
  - apply tasks_unmounted. exact Hts.
  - rewrite in_flight_count, count_unmounted. exact Hn.
Qed.

(** Every reachable state satisfies the invariant. *)
Lemma reachable_invariant (p : Wizard.Page) :
  Wizard.reachable p -> page_invariant p.
Proof.
  induction 1 as [|ev p Hr IH Hen].
  - apply initial_invariant.
  - unfold Wizard.handle. apply remount_invariant.
    apply dispatch_invariant; assumption.
Qed.

Lemma run_reachable (evs : list Wizard.Event) :
  forall p, Wizard.reachable p -> Wizard.reachable (Wizard.run evs p).
Proof.
  induction evs as [|ev rest IH]; intros p Hp; [exact Hp|].
  simpl. apply IH. destruct (Wizard.enabled ev p) eqn:E; [|exact Hp].
  apply Wizard.reach_event; assumption.
Qed.

(** The sample session ends on the results step with what was entered,
    although the user had gone back to step 3 while the request was in
    flight. *)
Example sample_session_end :
  let p := Wizard.run sample_session Wizard.initial_page in
  AppState.step (app (Wizard.world p)) = 5
  /\ AppState.results (app (Wizard.world p)) = JObj []
  /\ AppState.loading (app (Wizard.world p)) = false
  /\ Wizard.pending p = []
  /\ SkillsForm.skills (Wizard.world p) = [lit "Python"]
  /\ CertificationsForm.certs (Wizard.world p)
     = [ {| Certification.name := lit "CKA";
            Certification.issuer := Some [];
            Certification.year := Some 2024%Z |} ]
  /\ InternshipsForm.internships (Wizard.world p)
     = [ {| Internship.company := lit "Acme";
            Internship.role := Some [];
            Internship.durationMonths := Some 1%Z;
            Internship.achievements := Some [];
            Internship.hasCertificate := Some false |} ]
  /\ List.length (Env.requests (env (Wizard.world p))) = 1.
Proof. vm_compute. repeat split; reflexivity. Qed.

(** While the request of the sample session is in flight, the cursor is back
    on step 3, [loading] is set and one handler waits. *)
Example sample_session_in_flight :
  let p := Wizard.run (firstn 12 sample_session) Wizard.initial_page in
  AppState.step (app (Wizard.world p)) = 3
  /\ AppState.loading (app (Wizard.world p)) = true
  /\ Wizard.pending p = [Wizard.ScoreTask].
Proof. vm_compute. repeat split; reflexivity. Qed.

Lemma sample_session_reachable :
  Wizard.reachable (Wizard.run sample_session Wizard.initial_page).
Proof. apply run_reachable. apply Wizard.reach_initial. Qed.

(** X16. Whatever the user does and whenever the outcomes of the requests
    arrive, the cursor never leaves 0..5, so there is always a screen to
    render: [renderStep] never falls through to its [default]. *)
Theorem cursor_in_range (p : Wizard.Page) :
  Wizard.reachable p ->
  AppState.step (app (Wizard.world p)) <= 5
  /\ Wizard.renderStep (Wizard.world p) <> None.
Proof.
  intros H. apply reachable_invariant in H. destruct H as [[H _] _].
  split; [exact H|]. unfold Wizard.renderStep.
  destruct (AppState.step (app (Wizard.world p))) as [|[|[|[|[|[|n]]]]]];
    try discriminate.
  lia.
Qed.

Lemma cursor_in_range_witness :
  AppState.step
    (app (Wizard.world (Wizard.run sample_session Wizard.initial_page))) <= 5
  /\ Wizard.renderStep
       (Wizard.world (Wizard.run sample_session Wizard.initial_page))
     <> None.
Proof.
  apply (cursor_in_range (Wizard.run sample_session Wizard.initial_page)).
  apply run_reachable. apply Wizard.reach_initial.
Defined.

(** X17. The results screen is only ever shown after a scoring request was
    sent: no sequence of clicks and arrivals gets to step 5 without a
    submission. *)
Theorem results_need_submission (p : Wizard.Page) :
  Wizard.reachable p ->
  Wizard.renderStep (Wizard.world p) = Some Wizard.ResultsScreen ->
  exists url body,
    In (PostJson url body) (Env.requests (env (Wizard.world p))).
Proof.
  intros H Hs. apply reachable_invariant in H.
  destruct H as [[_ [H _]] _]. apply H. unfold Wizard.renderStep in Hs.
  destruct (AppState.step (app (Wizard.world p))) as [|[|[|[|[|[|n]]]]]];
    try discriminate Hs. reflexivity.
Qed.

Lemma results_need_submission_witness :
  exists url body,
    In (PostJson url body)
       (Env.requests
          (env (Wizard.world
                  (Wizard.run sample_session Wizard.initial_page)))).
Proof.
  apply (results_need_submission
           (Wizard.run sample_session Wizard.initial_page)).
  - apply run_reachable. apply Wizard.reach_initial.
  - reflexivity.
Defined.

(** X18. In every reachable state, also with requests in flight, the
    selected skills are pairwise distinct. *)
Theorem reachable_skills_distinct (p : Wizard.Page) :
  Wizard.reachable p -> NoDup (SkillsForm.skills (Wizard.world p)).
Proof.
  intros H. apply reachable_invariant in H. destruct H as [H _].
  unfold world_invariant in H. tauto.
Qed.

Lemma reachable_skills_distinct_witness :
  NoDup (SkillsForm.skills
           (Wizard.world (Wizard.run sample_session Wizard.initial_page))).
Proof.
  apply (reachable_skills_distinct
           (Wizard.run sample_session Wizard.initial_page)).
  apply run_reachable. apply Wizard.reach_initial.
Defined.

(** X19. In every reachable state, also with requests in flight, each
    stored record is complete: certifications have a non-empty name, an
    issuer and the year 2024 (no control changes the year); projects and
    internships have a non-empty, trimmed title or company and all their
    optional fields, the tech stack holds trimmed, non-empty, comma-free
    entries, and the duration is never 0.  The same holds of the list a
    waiting certificate handler captured. *)
Theorem reachable_records_complete (p : Wizard.Page) :
  Wizard.reachable p ->
  Forall cert_ok (CertificationsForm.certs (Wizard.world p))
  /\ Forall project_ok (ProjectsForm.projects (Wizard.world p))
  /\ Forall internship_ok (InternshipsForm.internships (Wizard.world p))
  /\ Forall task_ok (Wizard.pending p).
Proof.
  intros H. apply reachable_invariant in H. destruct H as [H [Ht _]].
  unfold world_invariant in H. tauto.
Qed.

Lemma reachable_records_complete_witness :
  let p := Wizard.run sample_session Wizard.initial_page in
  Forall cert_ok (CertificationsForm.certs (Wizard.world p))
  /\ Forall project_ok (ProjectsForm.projects (Wizard.world p))
  /\ Forall internship_ok (InternshipsForm.internships (Wizard.world p))
  /\ Forall task_ok (Wizard.pending p).
Proof.
  apply (reachable_records_complete
           (Wizard.run sample_session Wizard.initial_page)).
  apply run_reachable. apply Wizard.reach_initial.
Defined.

Lemma cert_entry_copies (c : Certification.t) :
  cert_ok c ->
  Some (Payload.Cert.issuer (App.cert_entry c)) = Certification.issuer c
  /\ Some (Payload.Cert.year (App.cert_entry c)) = Certification.year c.
Proof.
  intros [_ [Hy Hi]]. unfold App.cert_entry. simpl. rewrite Hy.
  destruct (Certification.issuer c) as [s|]; [|congruence].
  split; [|reflexivity]. destruct s; reflexivity.
Qed.

Lemma project_entry_copies (p : Project.t) :
  project_ok p ->
  Some (Payload.Project.description (App.project_entry p))
  = Project.description p
  /\ Some (Payload.Project.tech_stack (App.project_entry p))
     = Project.techStack p
  /\ Some (Payload.Project.github_url (App.project_entry p))
     = Project.githubUrl p.
Proof.
  intros [_ [_ [Hd [Hg [stack [Hs _]]]]]]. unfold App.project_entry. simpl.
  rewrite Hs.
  destruct (Project.description p) as [d|]; [|congruence].
  destruct (Project.githubUrl p) as [g|]; [|congruence].
  repeat split; [destruct d | destruct g]; reflexivity.
Qed.

Lemma internship_entry_copies (i : Internship.t) :
  internship_ok i ->
  Some (Payload.Internship.role (App.internship_entry i)) = Internship.role i
  /\ Some (Payload.Internship.duration_months (App.internship_entry i))
     = Internship.durationMonths i
  /\ Some (Payload.Internship.achievements (App.internship_entry i))
     = Internship.achievements i
  /\ Some (Payload.Internship.has_certificate (App.internship_entry i))
     = Internship.hasCertificate i.
Proof.
  intros [_ [_ [Hr [Ha [Hc [n [Hn Hn0]]]]]]]. unfold App.internship_entry.
  simpl. rewrite Hn.
  destruct (Internship.role i) as [r|]; [|congruence].
  destruct (Internship.achievements i) as [a|]; [|congruence].
  destruct (Internship.hasCertificate i) as [b|]; [|congruence].
  rewrite (or_number_present n 1 Hn0).
  repeat split; [destruct r | destruct a | destruct b]; reflexivity.
Qed.

Lemma map_copies (A B C : Type) (f : A -> B) (g : B -> option C)
  (h : A -> option C) (P : A -> Prop) (l : list A) :
  (forall x, P x -> g (f x) = h x) -> Forall P l ->
  map g (map f l) = map h l.
Proof.
  intros H Hl. rewrite map_map. induction Hl as [|x l Hx Hl IH];
    [reflexivity|]. simpl. rewrite (H x Hx), IH. reflexivity.
Qed.

(** X20. In every reachable state, also with requests in flight, the body
    that [calculateScore] would post is a plain copy of what is stored: for
    each of the ten properties the payload builder guards with [||]
    (issuer, year; description, tech_stack, github_url; role,
    duration_months, achievements, has_certificate; resume_text) the posted
    value is the stored one, position by position, and no default
    applies. *)
Theorem reachable_payload_copies (p : Wizard.Page) :
  Wizard.reachable p ->
  let data := AppState.data (app (Wizard.world p)) in
  let body := App.payload data in
  (* certifications *)
  map (fun e => Some (Payload.Cert.issuer e)) (Payload.certifications body)
  = map Certification.issuer (Intake.certifications data)
  /\ map (fun e => Some (Payload.Cert.year e)) (Payload.certifications body)
     = map Certification.year (Intake.certifications data)
  (* projects *)
  /\ map (fun e => Some (Payload.Project.description e))
         (Payload.projects body)
     = map Project.description (Intake.projects data)
  /\ map (fun e => Some (Payload.Project.tech_stack e)) (Payload.projects body)
     = map Project.techStack (Intake.projects data)
  /\ map (fun e => Some (Payload.Project.github_url e)) (Payload.projects body)
     = map Project.githubUrl (Intake.projects data)
  (* internships *)
  /\ map (fun e => Some (Payload.Internship.role e)) (Payload.internships body)
     = map Internship.role (Intake.internships data)
  /\ map (fun e => Some (Payload.Internship.duration_months e))
         (Payload.internships body)
     = map Internship.durationMonths (Intake.internships data)
  /\ map (fun e => Some (Payload.Internship.achievements e))
         (Payload.internships body)
     = map Internship.achievements (Intake.internships data)
  /\ map (fun e => Some (Payload.Internship.has_certificate e))
         (Payload.internships body)
     = map Internship.hasCertificate (Intake.internships data)
  (* resume *)
  /\ Some (Payload.resume_text body) = Intake.resumeText data.
Proof.
  intros H. apply reachable_invariant in H. destruct H as [H _].
  destruct H as [_ [_ [_ [Hc [Hp [Hi [_ [_ [Hr _]]]]]]]]]. simpl.
  repeat split.
  - apply (map_copies _ _ _ _ _ _ cert_ok); [|exact Hc].
    intros c Hok. apply (cert_entry_copies c Hok).
  - apply (map_copies _ _ _ _ _ _ cert_ok); [|exact Hc].
    intros c Hok. apply (cert_entry_copies c Hok).
  - apply (map_copies _ _ _ _ _ _ project_ok); [|exact Hp].
    intros x Hok. apply (project_entry_copies x Hok).
  - apply (map_copies _ _ _ _ _ _ project_ok); [|exact Hp].
    intros x Hok. apply (project_entry_copies x Hok).
  - apply (map_copies _ _ _ _ _ _ project_ok); [|exact Hp].
    intros x Hok. apply (project_entry_copies x Hok).
  - apply (map_copies _ _ _ _ _ _ internship_ok); [|exact Hi].
    intros i Hok. apply (internship_entry_copies i Hok).
  - apply (map_copies _ _ _ _ _ _ internship_ok); [|exact Hi].
    intros i Hok. apply (internship_entry_copies i Hok).
  - apply (map_copies _ _ _ _ _ _ internship_ok); [|exact Hi].
    intros i Hok. apply (internship_entry_copies i Hok).
  - apply (map_copies _ _ _ _ _ _ internship_ok); [|exact Hi].
    intros i Hok. apply (internship_entry_copies i Hok).
  - destruct (Intake.resumeText (AppState.data (app (Wizard.world p))))
      as [[|c text]|]; [reflexivity | reflexivity | congruence].
Qed.

Lemma reachable_payload_copies_witness :
  let data :=
    AppState.data
      (app (Wizard.world (Wizard.run sample_session Wizard.initial_page))) in
  map (fun e => Some (Payload.Internship.duration_months e))
      (Payload.internships (App.payload data))
  = map Internship.durationMonths (Intake.internships data)
  /\ Some (Payload.resume_text (App.payload data)) = Intake.resumeText data.
Proof.
  destruct (reachable_payload_copies
              (Wizard.run sample_session Wizard.initial_page))
    as [_ [_ [_ [_ [_ [_ [Hd [_ [_ Ht]]]]]]]]].
  - apply run_reachable. apply Wizard.reach_initial.
  - split; [exact Hd | exact Ht].
Defined.

(** X25. At most one scoring request is in flight at any time: [loading] is
    set exactly while one is, and the submit button is disabled
    meanwhile. *)
Theorem one_scoring_request (p : Wizard.Page) :
  Wizard.reachable p ->
  Wizard.scoring_in_flight p <= 1
  /\ (AppState.loading (app (Wizard.world p)) = true
      <-> Wizard.scoring_in_flight p = 1)
  /\ (Wizard.scoring_in_flight p = 1 ->
      Wizard.enabled Wizard.CalculateClick p = false).
Proof.
  intros H. apply reachable_invariant in H. destruct H as [_ [_ H]].
  rewrite H. unfold Wizard.enabled.
  destruct (AppState.loading (app (Wizard.world p))); simpl.
  - split; [lia|]. split; [tauto|]. intros _. apply andb_false_r.
  - split; [lia|]. split; [split; discriminate | discriminate].
Qed.

Lemma one_scoring_request_witness :
  let p := Wizard.run (firstn 12 sample_session) Wizard.initial_page in
  Wizard.scoring_in_flight p <= 1
  /\ (AppState.loading (app (Wizard.world p)) = true
      <-> Wizard.scoring_in_flight p = 1)
  /\ (Wizard.scoring_in_flight p = 1 ->
      Wizard.enabled Wizard.CalculateClick p = false).
Proof.
  apply (one_scoring_request
           (Wizard.run (firstn 12 sample_session) Wizard.initial_page)).
  apply run_reachable. apply Wizard.reach_initial.
Defined.

(* ================================================================== *)
(** * The skill catalogue *)
(* ================================================================== *)

Lemma in_filteredCategories (lower : jsstring -> jsstring)
  (s : SkillsCatalog.t) (selected : list jsstring) (c : SkillsCatalog.Offer) :
  In c (SkillsCatalog.filteredCategories lower s selected) ->
  exists info,
    In (SkillsCatalog.cat c, info) (SkillsCatalog.allSkills s)
    /\ SkillsCatalog.total c = List.length (SkillsCatalog.skills info)
    /\ SkillsCatalog.offered c
       = filter (fun sk =>
                   SkillsCatalog.str_includes (lower sk)
                     (lower (SkillsCatalog.search s))
                   && negb (includes selected sk))
                (SkillsCatalog.skills info).
Proof.
  unfold SkillsCatalog.filteredCategories. intros H.
  apply filter_In in H. destruct H as [H _].
  apply in_map_iff in H. destruct H as [[category info] [Hc Hin]].
  subst c. exists info. simpl. repeat split. exact Hin.
Qed.

(** X21. Every skill the catalogue offers belongs to its category, matches the
    search and is not selected yet, so clicking it always adds it at the end
    of the selection; the count shown for a category is that of the whole
    category, whatever is filtered out. *)
Theorem offered_skills_are_new (lower : jsstring -> jsstring)
  (s : SkillsCatalog.t) (w : World) (c : SkillsCatalog.Offer)
  (sk : jsstring) :
  In c (SkillsCatalog.filteredCategories lower s (SkillsForm.skills w)) ->
  In sk (SkillsCatalog.offered c) ->
  ~ In sk (SkillsForm.skills w)
  /\ SkillsCatalog.str_includes (lower sk) (lower (SkillsCatalog.search s))
     = true
  /\ (exists info,
         In (SkillsCatalog.cat c, info) (SkillsCatalog.allSkills s)
         /\ In sk (SkillsCatalog.skills info)
         /\ SkillsCatalog.total c = List.length (SkillsCatalog.skills info))
  /\ SkillsForm.skills (SkillsForm.addSkill sk w)
     = SkillsForm.skills w ++ [sk].
Proof.
  intros Hc Hsk.
  destruct (in_filteredCategories lower s _ c Hc) as [info [Hin [Ht Ho]]].
  rewrite Ho in Hsk. apply filter_In in Hsk. destruct Hsk as [Hsk Hcond].
  apply andb_true_iff in Hcond. destruct Hcond as [Hmatch Hnew].
  apply negb_true_iff in Hnew.
  split; [intros Habs; apply includes_In in Habs; congruence|].
  split; [exact Hmatch|].
  split; [exists info; repeat split; assumption|].
  unfold SkillsForm.addSkill. rewrite Hnew. reflexivity.
Qed.

Lemma offered_skills_are_new_witness :
  SkillsForm.skills (SkillsForm.addSkill (lit "Go") Sample.world_resume_step)
  = [lit "Python"] ++ [lit "Go"].
Proof.
  apply (offered_skills_are_new ascii_lower sample_catalogue
           Sample.world_resume_step
           {| SkillsCatalog.cat := lit "Languages";
              SkillsCatalog.offer_icon := lit "L";
              SkillsCatalog.offered := [lit "Go"];
              SkillsCatalog.total := 3 |}
           (lit "Go")).
  - vm_compute. left. reflexivity.
  - simpl. left. reflexivity.
Defined.

(** X22. With an empty search box every category of the catalogue is listed, in
    the catalogue's order and with its full count, also when all its skills
    are already selected; with a search text, only categories that still
    have a skill to offer are listed. *)
Theorem search_narrows_categories (lower : jsstring -> jsstring)
  (s : SkillsCatalog.t) (selected : list jsstring) :
  (SkillsCatalog.search s = [] ->
   map (fun c => (SkillsCatalog.cat c, SkillsCatalog.total c))
       (SkillsCatalog.filteredCategories lower s selected)
   = map (fun entry : jsstring * SkillsCatalog.Info =>
            (fst entry, List.length (SkillsCatalog.skills (snd entry))))
         (SkillsCatalog.allSkills s))
  /\ (SkillsCatalog.search s <> [] ->
      Forall (fun c => SkillsCatalog.offered c <> [])
             (SkillsCatalog.filteredCategories lower s selected)).
Proof.
  unfold SkillsCatalog.filteredCategories. split; intros H.
  - rewrite H. induction (SkillsCatalog.allSkills s) as [|[k info] l IH];
      [reflexivity|].
    simpl. rewrite orb_true_r. simpl. f_equal. exact IH.
  - apply Forall_forall. intros c Hc. apply filter_In in Hc.
    destruct Hc as [_ Hc]. destruct (SkillsCatalog.search s); [congruence|].
    rewrite orb_false_r in Hc. apply Nat.ltb_lt in Hc.
    destruct (SkillsCatalog.offered c); [simpl in Hc; lia | discriminate].
Qed.

Lemma search_narrows_categories_witness :
  Forall (fun c => SkillsCatalog.offered c <> [])
         (SkillsCatalog.filteredCategories ascii_lower sample_catalogue
            [lit "Python"])
  /\ map SkillsCatalog.cat
         (SkillsCatalog.filteredCategories ascii_lower sample_catalogue
            [lit "Python"])
     = [lit "Languages"].
Proof.
  split; [|reflexivity].
  apply (proj2 (search_narrows_categories ascii_lower sample_catalogue
                  [lit "Python"])).
  discriminate.
Defined.

(** X23. When the catalogue request fails (rejected, or not JSON) the form still
    leaves its loading state, keeps the catalogue it had and, on first load,
    lists no category; when it succeeds the catalogue is the response. *)
Theorem catalogue_load (net : Net (list (jsstring * SkillsCatalog.Info)))
  (s : SkillsCatalog.t) (lower : jsstring -> jsstring)
  (selected : list jsstring) :
  SkillsCatalog.loading (SkillsCatalog.mount_effect net s) = false
  /\ SkillsCatalog.search (SkillsCatalog.mount_effect net s)
     = SkillsCatalog.search s
  /\ (failed net = true ->
      SkillsCatalog.allSkills (SkillsCatalog.mount_effect net s)
      = SkillsCatalog.allSkills s
      /\ SkillsCatalog.filteredCategories lower
           (SkillsCatalog.mount_effect net SkillsCatalog.initial) selected
         = [])
  /\ (forall data, net = Responded (Some data) ->
      SkillsCatalog.allSkills (SkillsCatalog.mount_effect net s) = data).
Proof.
  destruct net as [|[data|]]; simpl; repeat split; try discriminate.
  intros d E. inversion E. reflexivity.
Qed.

Lemma catalogue_load_witness :
  SkillsCatalog.filteredCategories ascii_lower
    (SkillsCatalog.mount_effect Rejected SkillsCatalog.initial) [lit "Go"]
  = [].
Proof.
  apply (proj2 (proj2 (catalogue_load Rejected sample_catalogue ascii_lower
                         [lit "Go"]))).
  reflexivity.
Defined.

(* ================================================================== *)
(** * Score bands *)
(* ================================================================== *)

Lemma Qle_bool_trans (p q r : QArith_base.Q) :
  QArith_base.Qle_bool p q = true -> QArith_base.Qle_bool q r = true ->
  QArith_base.Qle_bool p r = true.
Proof.
  rewrite !QArith_base.Qle_bool_iff. apply QArith_base.Qle_trans.
Qed.

Lemma ge_trans (x y : Num.t) (n : Z) :
  Num.ge y x = true -> Num.ge x (Num.of_Z n) = true ->
  Num.ge y (Num.of_Z n) = true.
Proof.
  unfold Num.of_Z. destruct x, y; simpl; try congruence.
  intros H1 H2. exact (Qle_bool_trans _ _ _ H2 H1).
Qed.

Lemma ge_lower (s : Num.t) (a b : Z) :
  Num.ge (Num.of_Z a) (Num.of_Z b) = true ->
  Num.ge s (Num.of_Z a) = true -> Num.ge s (Num.of_Z b) = true.
Proof. intros Hab Hs. exact (ge_trans (Num.of_Z a) s b Hs Hab). Qed.

Ltac colour_clash :=
  match goal with
  | H : lit _ = lit _ |- _ => vm_compute in H; discriminate H
  | H : true = false |- _ => discriminate H
  | H : false = true |- _ => discriminate H
  | H : _ /\ _ |- _ => destruct H; colour_clash
  end.

(** X24. The bands are cut at 80, 60 and 40, each threshold belonging to the
    upper band: [getColor] returns ['#10b981'] exactly when [s >= 80],
    ['#eab308'] exactly when [s >= 60] but not [s >= 80], ['#f97316']
    exactly when [s >= 40] but not [s >= 60], and ['#ef4444'] exactly when
    not [s >= 40], where for a finite [s] the test [s >= n] is the order of
    the rationals.  The copy in the resume preview, [getScoreColor], gives
    the same colour for every number; a higher score never gets a worse
    band; a score that is not a number gets the worst band. *)
Theorem score_bands (s t : Num.t) :
  ResumePreview.getScoreColor s = ResultsDashboard.getColor s
  /\ (num_le s t ->
      band (ResultsDashboard.getColor s) <= band (ResultsDashboard.getColor t))
  /\ ResultsDashboard.getColor Num.NaN = lit "#ef4444"
  /\ (ResultsDashboard.getColor s = lit "#10b981"
      <-> Num.ge s (Num.of_Z 80) = true)
  /\ (ResultsDashboard.getColor s = lit "#eab308"
      <-> Num.ge s (Num.of_Z 80) = false /\ Num.ge s (Num.of_Z 60) = true)
  /\ (ResultsDashboard.getColor s = lit "#f97316"
      <-> Num.ge s (Num.of_Z 60) = false /\ Num.ge s (Num.of_Z 40) = true)
  /\ (ResultsDashboard.getColor s = lit "#ef4444"
      <-> Num.ge s (Num.of_Z 40) = false)
  /\ (forall (q : QArith_base.Q) (n : Z),
         Num.ge (Num.Fin q) (Num.of_Z n) = true
         <-> QArith_base.Qle (QArith_base.inject_Z n) q).
Proof.
  split; [reflexivity|]. split; [|split; [reflexivity|]].
  - unfold num_le. intros H.
    pose proof (ge_trans s t 80 H) as H80.
    pose proof (ge_trans s t 60 H) as H60.
    pose proof (ge_trans s t 40 H) as H40.
    unfold ResultsDashboard.getColor.
    destruct (Num.ge s (Num.of_Z 80)); [rewrite (H80 eq_refl); reflexivity|].
    destruct (Num.ge s (Num.of_Z 60)).
    { rewrite (H60 eq_refl).
      destruct (Num.ge t (Num.of_Z 80)); vm_compute; lia. }
    destruct (Num.ge s (Num.of_Z 40)).
    { rewrite (H40 eq_refl).
      destruct (Num.ge t (Num.of_Z 80)); [vm_compute; lia|].
      destruct (Num.ge t (Num.of_Z 60)); vm_compute; lia. }
    change (band (lit "#ef4444")) with 0. lia.
  - pose proof (ge_lower s 80 60 eq_refl) as A1.
    pose proof (ge_lower s 60 40 eq_refl) as A2.
    unfold ResultsDashboard.getColor.
    destruct (Num.ge s (Num.of_Z 80)) eqn:E80;
      [specialize (A1 eq_refl); specialize (A2 A1); rewrite A1, A2|];
      [|destruct (Num.ge s (Num.of_Z 60)) eqn:E60;
        [specialize (A2 eq_refl); rewrite A2
        |destruct (Num.ge s (Num.of_Z 40)) eqn:E40]];
      (split; [|split; [|split; [|split]]]);
      try (split; intros; try colour_clash; auto; fail);
      try (intros q n; unfold Num.of_Z; simpl;
           apply QArith_base.Qle_bool_iff).
Qed.

Lemma score_bands_witness :
  band (ResultsDashboard.getColor (Num.of_Z 59))
  <= band (ResultsDashboard.getColor (Num.Fin (QArith_base.Qmake 121 2))).
Proof.
  apply (proj1 (proj2 (score_bands (Num.of_Z 59)
                         (Num.Fin (QArith_base.Qmake 121 2))))).
  reflexivity.
Defined.

(** The band edges: 80, 60 and 40 belong to the upper band. *)
Example score_band_edges :
  map (fun n => band (ResultsDashboard.getColor (Num.of_Z n)))
      [100; 80; 79; 60; 59; 40; 39; 0; -5]%Z
  = [3; 3; 2; 2; 1; 1; 0; 0; 0].
Proof. reflexivity. Qed.
